(** * napalm_network: filtering helpers and the configuration transaction logic

    A shallow embedding of [napalm/_modules/napalm_network.py].

    The module is dynamically typed Python: every value that travels
    through it (the envelopes returned by the proxy, the records of the
    ARP / MAC / LLDP tables, the filter arguments) is a Python object.
    The embedding therefore has one type of Python values, [pyval], the
    handful of built-in operations the module applies to them, and an
    error type for the exceptions these operations raise.

    Dictionaries are association lists in insertion order with string
    keys (the iteration order of a Python 3.7+ [dict]); floats are not
    part of the value universe. *)

From Stdlib Require Import String Ascii List ZArith Bool Arith Lia.
From Stdlib Require Import DecimalString.
Import ListNotations.

Local Open Scope string_scope.
Local Open Scope list_scope.

Set Implicit Arguments.
Local Set Warnings "-register-all".

(** The line feed of Python's ['\n']. *)
Definition nl : string := String "010"%char EmptyString.

(* ------------------------------------------------------------------ *)
(** ** Python values                                                    *)
(* ------------------------------------------------------------------ *)

Inductive exn : Type :=
| KeyError
| TypeError
| AttributeError.

Inductive result (A : Type) : Type :=
| Ok (a : A)
| Raise (e : exn).

Arguments Ok {A} a.
Arguments Raise {A} e.

Definition rbind {A B : Type} (r : result A) (k : A -> result B) : result B :=
  match r with
  | Ok a => k a
  | Raise e => Raise e
  end.

Declare Scope result_scope.
Delimit Scope result_scope with result.
Notation "x <- c ;; k" := (rbind c (fun x => k))
  (at level 100, c at next level, right associativity) : result_scope.

Inductive pyval : Type :=
| PNone
| PBool (b : bool)
| PInt (n : Z)
| PStr (s : string)
| PList (l : list pyval)
| PDict (d : list (string * pyval)).

(** A [dict] with string keys, in insertion order. *)
Definition dict (V : Type) : Type := list (string * V).

Section Dict.
Variable V : Type.

(** [d.get(k)] / [k in d]: the value stored under [k], if any. *)
Fixpoint dict_get (k : string) (d : dict V) : option V :=
  match d with
  | [] => None
  | (k', v) :: d' => if String.eqb k k' then Some v else dict_get k d'
  end.

(** [d[k] = v]: an existing key keeps its position, a new key goes last. *)
Fixpoint dict_set (k : string) (v : V) (d : dict V) : dict V :=
  match d with
  | [] => [(k, v)]
  | (k', v') :: d' =>
      if String.eqb k k' then (k', v) :: d' else (k', v') :: dict_set k v d'
  end.

(** [d.pop(k, default)], the dictionary that is left. *)
Fixpoint dict_pop (k : string) (d : dict V) : dict V :=
  match d with
  | [] => []
  | (k', v') :: d' =>
      if String.eqb k k' then dict_pop k d' else (k', v') :: dict_pop k d'
  end.

Definition dict_keys (d : dict V) : list string := map fst d.
End Dict.

(** Truth value of an object, as tested by [if x:] and [not x]. *)
Definition truthy (v : pyval) : bool :=
  match v with
  | PNone => false
  | PBool b => b
  | PInt n => negb (Z.eqb n 0)
  | PStr s => negb (String.eqb s "")
  | PList l => match l with [] => false | _ => true end
  | PDict d => match d with [] => false | _ => true end
  end.

(** [isinstance(v, int)]: [bool] is a subclass of [int]. *)
Definition isinstance_int (v : pyval) : bool :=
  match v with
  | PBool _ | PInt _ => true
  | _ => false
  end.

(** The number a [bool] or [int] stands for in a comparison. *)
Definition as_number (v : pyval) : option Z :=
  match v with
  | PBool b => Some (if b then 1%Z else 0%Z)
  | PInt n => Some n
  | _ => None
  end.

(** Python's [a == b]. Numbers compare by value ([True == 1]), strings
    and lists structurally, dictionaries key by key whatever the order. *)
Fixpoint py_eq (a b : pyval) {struct a} : bool :=
  match a, b with
  | PNone, PNone => true
  | PBool x, (PBool _ | PInt _) =>
      match as_number b with
      | Some n => Z.eqb (if x then 1 else 0) n
      | None => false
      end
  | PInt x, (PBool _ | PInt _) =>
      match as_number b with
      | Some n => Z.eqb x n
      | None => false
      end
  | PStr x, PStr y => String.eqb x y
  | PList xs, PList ys =>
      (fix eq_list (xs ys : list pyval) {struct xs} : bool :=
         match xs, ys with
         | [], [] => true
         | x :: xs', y :: ys' => py_eq x y && eq_list xs' ys'
         | _, _ => false
         end) xs ys
  | PDict d1, PDict d2 =>
      Nat.eqb (List.length d1) (List.length d2) &&
      (fix eq_items (d : list (string * pyval)) {struct d} : bool :=
         match d with
         | [] => true
         | (k, v) :: d' =>
             match dict_get k d2 with
             | Some v' => py_eq v v' && eq_items d'
             | None => false
             end
         end) d1
  | _, _ => false
  end.

(** [len(v)]. *)
Definition py_len (v : pyval) : result nat :=
  match v with
  | PStr s => Ok (String.length s)
  | PList l => Ok (List.length l)
  | PDict d => Ok (List.length d)
  | _ => Raise TypeError
  end.

(** The objects produced by [for x in v]. A string yields its
    characters one by one; a character is one [ascii] here, so text is
    modelled with one byte per character. *)
Definition py_iter (v : pyval) : result (list pyval) :=
  match v with
  | PList l => Ok l
  | PDict d => Ok (map (fun kv => PStr (fst kv)) d)
  | PStr s => Ok (map (fun c => PStr (String c "")) (list_ascii_of_string s))
  | _ => Raise TypeError
  end.

(** [a += b], the new value of [a]. *)
Definition py_iadd (a b : pyval) : result pyval :=
  match a with
  | PStr x =>
      match b with
      | PStr y => Ok (PStr (x ++ y))
      | _ => Raise TypeError
      end
  | PBool _ | PInt _ =>
      match as_number a, as_number b with
      | Some x, Some y => Ok (PInt (x + y))
      | _, _ => Raise TypeError
      end
  | PList l =>
      match py_iter b with
      | Ok l' => Ok (PList (l ++ l'))
      | Raise e => Raise e
      end
  | PNone | PDict _ => Raise TypeError
  end.

(** [o.get(k, default)]. *)
Definition py_get (o : pyval) (k : string) (default : pyval) : result pyval :=
  match o with
  | PDict d =>
      match dict_get k d with
      | Some v => Ok v
      | None => Ok default
      end
  | _ => Raise AttributeError
  end.

(** [o[k]] for a string [k]. *)
Definition py_getitem (o : pyval) (k : string) : result pyval :=
  match o with
  | PDict d =>
      match dict_get k d with
      | Some v => Ok v
      | None => Raise KeyError
      end
  | _ => Raise TypeError
  end.

(** [o[k] = v] for a string [k]; the object after the assignment. *)
Definition py_setitem (o : pyval) (k : string) (v : pyval) : result pyval :=
  match o with
  | PDict d => Ok (PDict (dict_set k v d))
  | _ => Raise TypeError
  end.

(** [o.pop(k, default)]; the object after the call. *)
Definition py_pop (o : pyval) (k : string) : result pyval :=
  match o with
  | PDict d => Ok (PDict (dict_pop k d))
  | PList _ => Raise TypeError
  | _ => Raise AttributeError
  end.

(** [o.update({k: v})]; the object after the call. *)
Definition py_update1 (o : pyval) (k : string) (v : pyval) : result pyval :=
  match o with
  | PDict d => Ok (PDict (dict_set k v d))
  | _ => Raise AttributeError
  end.

(** [six.iteritems(o)]: the items of a dictionary, in iteration order. *)
Definition py_iteritems (o : pyval) : result (list (string * pyval)) :=
  match o with
  | PDict d => Ok d
  | _ => Raise AttributeError
  end.

(** [o[k] += rhs]: the item is read, then the right-hand side is
    evaluated, then the sum is stored back. *)
Definition py_iadd_item (o : pyval) (k : string) (rhs : result pyval)
  : result pyval :=
  (cur <- py_getitem o k ;;
   v <- rhs ;;
   s <- py_iadd cur v ;;
   py_setitem o k s)%result.

(** [o[k] if o[k] else default]. *)
Definition item_or (o : pyval) (k : string) (default : string)
  : result pyval :=
  (c <- py_getitem o k ;;
   if truthy c then py_getitem o k else Ok (PStr default))%result.

(* ------------------------------------------------------------------ *)
(** ** Helper functions of the module                                   *)
(* ------------------------------------------------------------------ *)

(** [_filter_list(input_list, search_key, search_value)]:
    the loop appends to [output_list] every element [dictionary] with
    [dictionary.get(search_key) == search_value]. *)
Fixpoint _filter_list_loop (items : list pyval) (search_key : string)
    (search_value : pyval) (output_list : list pyval) : result (list pyval) :=
  match items with
  | [] => Ok output_list
  | dictionary :: rest =>
      (field <- py_get dictionary search_key PNone ;;
       _filter_list_loop rest search_key search_value
         (if py_eq field search_value
          then output_list ++ [dictionary]
          else output_list))%result
  end.

Definition _filter_list (input_list : pyval) (search_key : string)
    (search_value : pyval) : result pyval :=
  (items <- py_iter input_list ;;
   output_list <- _filter_list_loop items search_key search_value [] ;;
   Ok (PList output_list))%result.

(** [_filter_dict(input_dict, search_key, search_value)]: a group is
    stored in [output_dict] only when its filtered list is true. *)
Fixpoint _filter_dict_loop (items : list (string * pyval))
    (search_key : string) (search_value : pyval)
    (output_dict : dict pyval) : result (dict pyval) :=
  match items with
  | [] => Ok output_dict
  | (key, key_list) :: rest =>
      (key_list_filtered <- _filter_list key_list search_key search_value ;;
       _filter_dict_loop rest search_key search_value
         (if truthy key_list_filtered
          then dict_set key key_list_filtered output_dict
          else output_dict))%result
  end.

Definition _filter_dict (input_dict : pyval) (search_key : string)
    (search_value : pyval) : result pyval :=
  (items <- py_iteritems input_dict ;;
   output_dict <- _filter_dict_loop items search_key search_value [] ;;
   Ok (PDict output_dict))%result.

(* ------------------------------------------------------------------ *)
(** ** The proxy and the functions that call it                         *)
(* ------------------------------------------------------------------ *)

Section Driver.

(** The device behind the proxy: [napalm_call method kwargs] is
    [__proxy__['napalm.call'](method, **kwargs)], which answers with an
    envelope and may change the device. *)
Variable World : Type.
Variable napalm_call : string -> dict pyval -> World -> pyval * World.

(** Python's [str()], which [str.format] applies to the value of a
    replacement field. *)
Variable py_str : pyval -> string.

(** The device together with the names of the proxy methods called so
    far, oldest first. *)
Record state : Type := mkState { world : World; calls : list string }.

Definition M (A : Type) : Type := state -> result A * state.

Definition ret {A : Type} (a : A) : M A := fun st => (Ok a, st).

Definition bind {A B : Type} (m : M A) (k : A -> M B) : M B :=
  fun st =>
    match m st with
    | (Ok a, st') => k a st'
    | (Raise e, st') => (Raise e, st')
    end.

Definition lift {A : Type} (r : result A) : M A := fun st => (r, st).

Notation "x <- c ;; k" := (bind c (fun x => k))
  (at level 100, c at next level, right associativity).
Notation "x <~ c ;; k" := (bind (lift c) (fun x => k))
  (at level 100, c at next level, right associativity).

Definition call (method : string) (kwargs : dict pyval) : M pyval :=
  fun st =>
    let (envelope, w) := napalm_call method kwargs (world st) in
    (Ok envelope, mkState w (calls st ++ [method])).

Definition commit : M pyval := call "commit_config" [].
Definition discard_config : M pyval := call "discard_config" [].
Definition compare_config : M pyval := call "compare_config" [].
Definition rollback : M pyval := call "rollback" [].

(** [_config_logic(loaded_result, test, commit_config)]. The dictionary
    [loaded_result] is changed in place and returned; here each change
    rebinds the name. *)
Definition _config_logic (loaded_result : pyval) (test commit_config : bool)
  : M pyval :=
  loaded_result <~
    py_setitem loaded_result "already_configured" (PBool false) ;;
  _compare <- compare_config ;;
  compared <~ py_get _compare "result" (PBool false) ;;
  loaded_result <~
    (if truthy compared
     then (out <- py_get _compare "out" PNone ;;
           with_diff <- py_setitem loaded_result "diff" out ;;
           py_pop with_diff "out")%result
     else Ok loaded_result) ;;
  _loaded_res <~ py_get loaded_result "result" (PBool false) ;;
  if negb (truthy _loaded_res) || test then
    comment <~ py_getitem loaded_result "comment" ;;
    loaded_result <~
      (if truthy comment
       then py_iadd_item loaded_result "comment" (Ok (PStr nl))
       else Ok loaded_result) ;;
    diff <~ py_get loaded_result "diff" (PStr "") ;;
    n <~ py_len diff ;;
    loaded_result <~
      (if negb (Nat.ltb 0 n)
       then py_setitem loaded_result "already_configured" (PBool true)
       else Ok loaded_result) ;;
    _discarded <- discard_config ;;
    discarded <~ py_get _discarded "result" (PBool false) ;;
    if negb (truthy discarded) then
      loaded_result <~
        py_iadd_item loaded_result "comment"
          (item_or _discarded "comment" "Unable to discard config.") ;;
      loaded_result <~ py_setitem loaded_result "result" (PBool false) ;;
      ret loaded_result
    else
      loaded_result <~
        py_iadd_item loaded_result "comment"
          (Ok (PStr "Configuration discarded.")) ;;
      ret loaded_result
  else if negb test && commit_config then
    diff <~ py_get loaded_result "diff" (PStr "") ;;
    n <~ py_len diff ;;
    if Nat.ltb 0 n then
      _commit <- commit ;;
      committed <~ py_get _commit "result" (PBool false) ;;
      if negb (truthy committed) then
        loaded_result <~
          py_iadd_item loaded_result "comment"
            (item_or _commit "comment" "Unable to commit config.") ;;
        loaded_result <~ py_setitem loaded_result "result" (PBool false) ;;
        _discarded <- discard_config ;;
        loaded_result <~
          py_iadd_item loaded_result "comment" (Ok (PStr nl)) ;;
        loaded_result <~
          py_iadd_item loaded_result "comment"
            (item_or _discarded "comment" "Unable to discard config.") ;;
        ret loaded_result
      else ret loaded_result
    else
      _discarded <- discard_config ;;
      discarded <~ py_get _discarded "result" (PBool false) ;;
      if negb (truthy discarded) then
        loaded_result <~
          py_iadd_item loaded_result "comment"
            (item_or _discarded "comment" "Unable to discard config.") ;;
        loaded_result <~ py_setitem loaded_result "result" (PBool false) ;;
        ret loaded_result
      else
        loaded_result <~
          py_setitem loaded_result "already_configured" (PBool true) ;;
        loaded_result <~
          py_setitem loaded_result "comment" (PStr "Already configured.") ;;
        ret loaded_result
  else ret loaded_result.

(** [arp(interface='', ipaddr='', macaddr='')]. *)
Definition arp (interface ipaddr macaddr : pyval) : M pyval :=
  proxy_output <- call "get_arp_table" [] ;;
  ok <~ py_get proxy_output "result" PNone ;;
  if negb (truthy ok) then ret proxy_output
  else
    arp_table <~ py_get proxy_output "out" PNone ;;
    arp_table <~
      (if truthy interface
       then _filter_list arp_table "interface" interface
       else Ok arp_table) ;;
    arp_table <~
      (if truthy ipaddr
       then _filter_list arp_table "ip" ipaddr
       else Ok arp_table) ;;
    arp_table <~
      (if truthy macaddr
       then _filter_list arp_table "mac" macaddr
       else Ok arp_table) ;;
    proxy_output <~ py_update1 proxy_output "out" arp_table ;;
    ret proxy_output.

(** [lldp(interface='')]. The interface becomes a dictionary key, so it
    is a string here. *)
Definition lldp (interface : string) : M pyval :=
  proxy_output <- call "get_lldp_neighbors_detail" [] ;;
  ok <~ py_get proxy_output "result" PNone ;;
  if negb (truthy ok) then ret proxy_output
  else
    lldp_neighbors <~ py_get proxy_output "out" PNone ;;
    lldp_neighbors <~
      (if truthy (PStr interface)
       then (group <- py_get lldp_neighbors interface PNone ;;
             Ok (PDict [(interface, group)]))%result
       else Ok lldp_neighbors) ;;
    proxy_output <~ py_update1 proxy_output "out" lldp_neighbors ;;
    ret proxy_output.

(** [mac(address='', interface='', vlan=0)]. *)
Definition mac (address interface vlan : pyval) : M pyval :=
  proxy_output <- call "get_mac_address_table" [] ;;
  ok <~ py_get proxy_output "result" PNone ;;
  if negb (truthy ok) then ret proxy_output
  else
    mac_address_table <~ py_get proxy_output "out" PNone ;;
    mac_address_table <~
      (if truthy vlan && isinstance_int vlan
       then _filter_list mac_address_table "vlan" vlan
       else Ok mac_address_table) ;;
    mac_address_table <~
      (if truthy address
       then _filter_list mac_address_table "mac" address
       else Ok mac_address_table) ;;
    mac_address_table <~
      (if truthy interface
       then _filter_list mac_address_table "interface" interface
       else Ok mac_address_table) ;;
    proxy_output <~ py_update1 proxy_output "out" mac_address_table ;;
    ret proxy_output.

(** [load_config(filename=None, text=None, test=False, commit=True)]. *)
Definition load_config (filename text : pyval) (test commit : bool)
  : M pyval :=
  _loaded <- call "load_merge_candidate"
               [("filename", filename); ("config", text)] ;;
  _config_logic _loaded test commit.

(** [config_changed()]. *)
Definition config_changed : M (bool * pyval) :=
  let is_config_changed := false in
  let reason := PStr "" in
  try_compare <- compare_config ;;
  compared <~ py_get try_compare "result" PNone ;;
  if truthy compared then
    out <~ py_get try_compare "out" PNone ;;
    if truthy out
    then ret (true, reason)
    else ret (is_config_changed,
              PStr "Configuration was not changed on the device.")
  else
    reason <~ py_get try_compare "comment" PNone ;;
    ret (is_config_changed, reason).

(** [config_control()]. In the source the text of the comment runs over
    a continued line, which puts the eight spaces of the indentation
    after the line feed. *)
Definition config_control : M (bool * pyval) :=
  let result := true in
  let comment := "" in
  changed_reason <- config_changed ;;
  let (changed, not_changed_reason) := changed_reason in
  if negb changed then ret (changed, not_changed_reason)
  else
    try_commit <- commit ;;
    committed <~ py_get try_commit "result" PNone ;;
    if negb (truthy committed) then
      let result := false in
      reason <~ py_get try_commit "comment" PNone ;;
      let comment :=
        ("Unable to commit the changes: " ++ py_str reason ++ "." ++ nl ++
         "        Will try to rollback now!")%string in
      try_rollback <- rollback ;;
      rolled_back <~ py_get try_rollback "result" PNone ;;
      if negb (truthy rolled_back) then
        reason <~ py_get try_rollback "comment" PNone ;;
        ret (result,
             PStr (comment ++ nl ++ "Cannot rollback! " ++ py_str reason))
      else ret (result, PStr comment)
    else ret (result, PStr comment).

End Driver.

Arguments ret {World A} a _.
Arguments lift {World A} r _.

(* ------------------------------------------------------------------ *)
(** ** Devices to run the functions on                                  *)
(* ------------------------------------------------------------------ *)

(** The envelope the proxy builds around the answer of a driver method:
    [{'out': out, 'result': result, 'comment': comment}]. *)
Definition envelope (result : bool) (out : pyval) (comment : string) : pyval :=
  PDict [("out", out); ("result", PBool result); ("comment", PStr comment)].

(** A device that answers every method from a fixed table of envelopes
    and counts the calls it has served. *)
Definition canned (answers : dict pyval)
  : string -> dict pyval -> nat -> pyval * nat :=
  fun method _ served =>
    (match dict_get method answers with
     | Some e => e
     | None => envelope false PNone "unknown method"
     end, S served).

(** [str()] on the scalars. Containers print as their [repr], which is
    not rendered here; no run below formats one. *)
Definition str_of_scalar (v : pyval) : string :=
  match v with
  | PStr s => s
  | PNone => "None"
  | PBool true => "True"
  | PBool false => "False"
  | PInt n => DecimalString.NilZero.string_of_int (Z.to_int n)
  | PList _ | PDict _ => ""
  end.

(** A fresh run: the device in state [w], no call made yet. *)
Definition start {World : Type} (w : World) : state World := mkState w [].

(* ------------------------------------------------------------------ *)
(** ** Text                                                             *)
(* ------------------------------------------------------------------ *)

(** [sub in s] for two strings. *)
Definition contains (sub s : string) : Prop :=
  exists before after, s = (before ++ sub ++ after)%string.

Fixpoint is_infix (sub s : string) : bool :=
  String.prefix sub s ||
  match s with
  | EmptyString => false
  | String _ s' => is_infix sub s'
  end.

(* ------------------------------------------------------------------ *)
(** ** Tables of records                                                *)
(* ------------------------------------------------------------------ *)

(** One row of device state. *)
Definition record : Type := dict pyval.

(** A list of records as the Python object the driver returns. *)
Definition table (rs : list record) : pyval := PList (map PDict rs).

(** A mapping from group name to a list of records, as a Python object. *)
Definition grouped (gs : list (string * list record)) : pyval :=
  PDict (map (fun g => (fst g, table (snd g))) gs).

(** [r.get(k)]: a missing field reads as [None]. *)
Definition field (r : record) (k : string) : pyval :=
  match dict_get k r with
  | Some v => v
  | None => PNone
  end.

(** [r.get(k) == v]. *)
Definition matches (k : string) (v : pyval) (r : record) : bool :=
  py_eq (field r k) v.

(** The groups that keep at least one record. *)
Definition has_match (k : string) (v : pyval) (g : string * list record)
  : bool :=
  match filter (matches k v) (snd g) with
  | [] => false
  | _ :: _ => true
  end.


(** What the specification says [_filter_dict] leaves of a mapping: the
    groups with a match, each with its filtered list, in the order of
    the input. *)
Definition filtered_groups (k : string) (v : pyval)
    (gs : list (string * list record)) : list (string * list record) :=
  map (fun g => (fst g, filter (matches k v) (snd g)))
      (filter (has_match k v) gs).

(** A filter that is applied only when its condition holds. *)
Definition filter_if (apply : bool) (k : string) (v : pyval)
    (rs : list record) : list record :=
  if apply then filter (matches k v) rs else rs.

(** The comment [config_control] builds when the commit fails, before it
    calls [rollback]. *)
Definition commit_failure_comment (reason : string) : string :=
  "Unable to commit the changes: " ++ reason ++ "." ++ nl ++
  "        Will try to rollback now!".

(** [d.get(k, default)] on a dictionary. *)
Definition get_or (d : dict pyval) (k : string) (default : pyval) : pyval :=
  match dict_get k d with
  | Some v => v
  | None => default
  end.

(** The diff [_config_logic] decides on: the output of a successful
    [compare_config], else whatever [loaded_result] had under ['diff']
    (the empty string when it had nothing). *)
Definition accumulated_diff (loaded c : dict pyval) : pyval :=
  if truthy (field c "result") then field c "out"
  else get_or loaded "diff" (PStr "").

(** [loaded_result] once [_config_logic] is past [compare_config]. *)
Definition after_compare (loaded c : dict pyval) : dict pyval :=
  if truthy (field c "result")
  then dict_pop "out"
         (dict_set "diff" (field c "out")
            (dict_set "already_configured" (PBool false) loaded))
  else dict_set "already_configured" (PBool false) loaded.

(** [text + '\n'] when [text] is not empty: the separator put after the
    message of the staging step. *)
Definition with_newline (text : string) : string :=
  if truthy (PStr text) then text ++ nl else text.

(** [comment if comment else default]. *)
Definition or_default (comment default : string) : string :=
  if truthy (PStr comment) then comment else default.



(* ------------------------------------------------------------------ *)
(** ** Concrete runs                                                    *)
(* ------------------------------------------------------------------ *)

(** The fields of the envelope of a staging step that succeeded and of
    one that failed. *)
Definition staged_ok : dict pyval :=
  [("out", PNone); ("result", PBool true); ("comment", PStr "")].

Definition staged_with_note : dict pyval :=
  [("out", PNone); ("result", PBool true);
   ("comment", PStr "candidate loaded")].

Definition staged_failed : dict pyval :=
  [("out", PNone); ("result", PBool false);
   ("comment", PStr "invalid syntax")].

Definition ok_fields : dict pyval :=
  [("out", PNone); ("result", PBool true); ("comment", PStr "")].

Definition diff_fields : dict pyval :=
  [("out", PStr "+ntp peer 192.0.2.1"); ("result", PBool true);
   ("comment", PStr "")].

Definition no_diff_fields : dict pyval :=
  [("out", PStr ""); ("result", PBool true); ("comment", PStr "")].

Definition compare_failed_fields : dict pyval :=
  [("out", PNone); ("result", PBool false);
   ("comment", PStr "connection lost")].

Definition commit_failed_fields : dict pyval :=
  [("out", PNone); ("result", PBool false); ("comment", PStr "syntax error")].

Definition discard_failed_fields : dict pyval :=
  [("out", PNone); ("result", PBool false);
   ("comment", PStr "session locked")].

Definition rollback_ok_fields : dict pyval :=
  [("out", PNone); ("result", PBool true);
   ("comment", PStr "Rollback complete.")].

Definition rollback_failed_fields : dict pyval :=
  [("out", PNone); ("result", PBool false); ("comment", PStr "no backup")].

(** A device with a pending change whose commit fails; discard and
    rollback work. *)
Definition commit_fails : dict pyval :=
  [("compare_config", PDict diff_fields);
   ("commit_config", PDict commit_failed_fields);
   ("discard_config", PDict ok_fields);
   ("rollback", PDict rollback_ok_fields)].

(** The same device when the rollback fails too. *)
Definition commit_and_rollback_fail : dict pyval :=
  [("compare_config", PDict diff_fields);
   ("commit_config", PDict commit_failed_fields);
   ("discard_config", PDict ok_fields);
   ("rollback", PDict rollback_failed_fields)].

(** A device with a pending change and no fault. *)
Definition healthy : dict pyval :=
  [("load_merge_candidate", PDict ok_fields);
   ("compare_config", PDict diff_fields);
   ("commit_config", PDict ok_fields);
   ("discard_config", PDict ok_fields);
   ("rollback", PDict rollback_ok_fields)].

(** A device whose candidate equals the running configuration. *)
Definition in_sync : dict pyval :=
  [("compare_config", PDict no_diff_fields);
   ("commit_config", PDict ok_fields);
   ("discard_config", PDict ok_fields)].

(** The same, with a configuration session that cannot be released. *)
Definition in_sync_locked : dict pyval :=
  [("compare_config", PDict no_diff_fields);
   ("commit_config", PDict ok_fields);
   ("discard_config", PDict discard_failed_fields)].

(** A device that cannot compute the diff. *)
Definition compare_fails : dict pyval :=
  [("compare_config", PDict compare_failed_fields);
   ("commit_config", PDict ok_fields);
   ("discard_config", PDict ok_fields)].

(** LLDP neighbors of one interface, and tables for the getters. *)
Definition neighbor : record :=
  [("remote_system_name", PStr "switch"); ("remote_port", PStr "Eth2/2/1")].

Definition lldp_fields : dict pyval :=
  [("out", PDict [("xe-0", table [neighbor]); ("xe-1", table [])]);
   ("result", PBool true); ("comment", PStr "")].

Definition mac_rows : list record :=
  [[("mac", PStr "00:1c:58:29:4a:71"); ("interface", PStr "xe-3/0/2");
    ("vlan", PInt 10)];
   [("mac", PStr "8c:60:4f:58:e1:c1"); ("interface", PStr "xe-1/0/1");
    ("vlan", PInt 42)]].

Definition mac_fields : dict pyval :=
  [("out", table mac_rows); ("result", PBool true); ("comment", PStr "")].

Definition getter_failed_fields : dict pyval :=
  [("out", table mac_rows); ("result", PBool false);
   ("comment", PStr "timeout")].

Definition tables_up : dict pyval :=
  [("get_lldp_neighbors_detail", PDict lldp_fields);
   ("get_mac_address_table", PDict mac_fields);
   ("get_arp_table", PDict mac_fields)].

Definition tables_down : dict pyval :=
  [("get_lldp_neighbors_detail", PDict getter_failed_fields);
   ("get_mac_address_table", PDict getter_failed_fields);
   ("get_arp_table", PDict getter_failed_fields)].

(* ------------------------------------------------------------------ *)
(** ** Loading a template                                               *)
(* ------------------------------------------------------------------ *)

(** [d.update(updates)]: the items of [updates] are stored one by one. *)
Definition dict_update {V : Type} (d updates : dict V) : dict V :=
  fold_left (fun acc kv => dict_set (fst kv) (snd kv) acc) updates d.

Section Templates.

Variable World : Type.
Variable napalm_call : string -> dict pyval -> World -> pyval * World.

(** The dictionaries the loader injects into the module. *)
Variables __pillar__ __grains__ __opts__ : pyval.

(** The keyword arguments [load_template] hands to the proxy: a copy of
    [template_vars] updated with the arguments of the function and the
    injected dictionaries. *)
Definition load_templates_params
    (template_name template_source template_path : pyval)
    (template_vars : dict pyval) : dict pyval :=
  dict_update template_vars
    [("template_name", template_name);
     ("template_source", template_source);
     ("template_path", template_path);
     ("pillar", __pillar__);
     ("grains", __grains__);
     ("opts", __opts__)].

(** [load_template(template_name, template_source=None,
    template_path=None, test=False, commit=True, **template_vars)]. *)
Definition load_template
    (template_name template_source template_path : pyval)
    (test commit : bool) (template_vars : dict pyval) : M World pyval :=
  bind (call napalm_call "load_template"
          (load_templates_params template_name template_source template_path
             template_vars))
    (fun _loaded => _config_logic napalm_call _loaded test commit).

End Templates.

(* ------------------------------------------------------------------ *)
(** ** Vocabulary for the properties                                    *)
(* ------------------------------------------------------------------ *)

(** The calls a computation adds to the log satisfy [P], whatever the
    state it starts in and whether it returns or raises. *)
Definition emits {World A : Type} (m : M World A)
    (P : list string -> Prop) : Prop :=
  forall st, exists t, calls (snd (m st)) = calls st ++ t /\ P t.

(** Every value a computation returns satisfies [Q]. *)
Definition returns {World A : Type} (m : M World A) (Q : A -> Prop) : Prop :=
  forall st a st', m st = (Ok a, st') -> Q a.

(** The sequences of proxy calls [_config_logic] can make. *)
Definition config_logic_traces : list (list string) :=
  [[];
   ["compare_config"];
   ["compare_config"; "discard_config"];
   ["compare_config"; "commit_config"];
   ["compare_config"; "commit_config"; "discard_config"]].

(** Those that leave the device uncommitted. *)
Definition uncommitted_traces : list (list string) :=
  [[]; ["compare_config"]; ["compare_config"; "discard_config"]].

(** The sequences of proxy calls [config_control] can make. *)
Definition config_control_traces : list (list string) :=
  [["compare_config"];
   ["compare_config"; "commit_config"];
   ["compare_config"; "commit_config"; "rollback"]].

(** A record passes the filters of [arp] that were asked for. *)
Definition arp_selects (interface ipaddr macaddr : pyval) (r : record)
  : bool :=
  (negb (truthy interface) || matches "interface" interface r)
  && (negb (truthy ipaddr) || matches "ip" ipaddr r)
  && (negb (truthy macaddr) || matches "mac" macaddr r).

(** A record passes the filters of [mac] that were asked for. *)
Definition mac_selects (address interface vlan : pyval) (r : record)
  : bool :=
  (negb (truthy vlan && isinstance_int vlan) || matches "vlan" vlan r)
  && (negb (truthy address) || matches "mac" address r)
  && (negb (truthy interface) || matches "interface" interface r).

(** A dictionary whose ['out'] and ['diff'] entries are [out] and [diff]. *)
Definition keeps_out_diff (out diff : option pyval) (v : pyval) : Prop :=
  exists d, v = PDict d /\ dict_get "out" d = out /\ dict_get "diff" d = diff.

(** Is every element of a list a dictionary? *)
Definition is_dict (v : pyval) : bool :=
  match v with
  | PDict _ => true
  | _ => false
  end.

(** The test of [_filter_list] on one element of the list: the element
    is kept when it is a dictionary whose field equals the value. *)
Definition selected (k : string) (v : pyval) (x : pyval) : bool :=
  match py_get x k PNone with
  | Ok f => py_eq f v
  | Raise _ => false
  end.

(** The keys [load_template] sets itself. *)
Definition reserved_template_keys : list string :=
  ["template_name"; "template_source"; "template_path";
   "pillar"; "grains"; "opts"].

(* ------------------------------------------------------------------ *)
(** ** More concrete runs                                               *)
(* ------------------------------------------------------------------ *)

(** A staging answer that lacks the ['comment'] entry. *)
Definition staged_no_comment : dict pyval :=
  [("out", PNone); ("result", PBool true)].

(** A comparison that reports success and has no output. *)
Definition silent_compare_fields : dict pyval :=
  [("result", PBool true); ("comment", PStr "")].

Definition compare_is_silent : dict pyval :=
  [("compare_config", PDict silent_compare_fields);
   ("commit_config", PDict ok_fields);
   ("discard_config", PDict ok_fields)].

(** A pending change on a device whose session cannot be released. *)
Definition change_locked : dict pyval :=
  [("compare_config", PDict diff_fields);
   ("commit_config", PDict commit_failed_fields);
   ("discard_config", PDict discard_failed_fields)].

(** A device that renders and stages templates. *)
Definition templating : dict pyval :=
  [("load_template", PDict staged_with_note);
   ("compare_config", PDict diff_fields);
   ("commit_config", PDict ok_fields);
   ("discard_config", PDict ok_fields)].

(** True answers without the ['out'] entry. *)
Definition no_output_fields : dict pyval :=
  [("result", PBool true); ("comment", PStr "")].

Definition tables_without_output : dict pyval :=
  [("get_lldp_neighbors_detail", PDict no_output_fields);
   ("get_mac_address_table", PDict no_output_fields);
   ("get_arp_table", PDict no_output_fields)].
(* ------------------------------------------------------------------ *)
(** ** Facts about text                                                 *)
(* ------------------------------------------------------------------ *)

Lemma append_assoc (a b c : string) :
  ((a ++ b) ++ c = a ++ (b ++ c))%string.
Proof. induction a as [|x a IH]; simpl; [reflexivity | now rewrite IH]. Qed.

Lemma append_empty_r (a : string) : (a ++ "")%string = a.
Proof. induction a as [|x a IH]; simpl; [reflexivity | now rewrite IH]. Qed.

Lemma prefix_append (sub rest : string) :
  String.prefix sub (sub ++ rest)%string = true.
Proof.
  induction sub as [|c sub IH]; simpl.
  - now destruct rest.
  - destruct (Ascii.ascii_dec c c) as [_|n]; [exact IH | now elim n].
Qed.

Lemma is_infix_unfold (sub s : string) :
  is_infix sub s =
  String.prefix sub s ||
  match s with
  | EmptyString => false
  | String _ s' => is_infix sub s'
  end.
Proof. destruct s; reflexivity. Qed.

Lemma contains_is_infix (sub s : string) :
  contains sub s -> is_infix sub s = true.
Proof.
  intros (before & after & ->).
  induction before as [|c before IH].
  - change ("" ++ sub ++ after)%string with (sub ++ after)%string.
    rewrite is_infix_unfold, prefix_append. reflexivity.
  - change (String c before ++ sub ++ after)%string
      with (String c (before ++ sub ++ after)).
    rewrite is_infix_unfold, IH. apply orb_true_r.
Qed.

Lemma not_infix_not_contains (sub s : string) :
  is_infix sub s = false -> ~ contains sub s.
Proof.
  intros H C. apply contains_is_infix in C. congruence.
Qed.

Lemma contains_here (sub after : string) : contains sub (sub ++ after).
Proof. exists "", after. reflexivity. Qed.

Lemma contains_append_l (sub s before : string) :
  contains sub s -> contains sub (before ++ s).
Proof.
  intros (b & a & ->). exists (before ++ b)%string, a.
  now rewrite append_assoc.
Qed.

Lemma contains_append_r (sub s after : string) :
  contains sub s -> contains sub (s ++ after).
Proof.
  intros (b & a & ->). exists b, (a ++ after)%string.
  now rewrite !append_assoc.
Qed.

Lemma contains_refl (s : string) : contains s s.
Proof.
  exists "", "". simpl. now rewrite append_empty_r.
Qed.

(* ------------------------------------------------------------------ *)
(** ** Dictionaries                                                     *)
(* ------------------------------------------------------------------ *)

Section DictFacts.
Variable V : Type.
Implicit Types (d : dict V) (k : string) (v : V).

Lemma dict_get_set_eq k v d : dict_get k (dict_set k v d) = Some v.
Proof.
  induction d as [|[k' v'] d IH]; simpl.
  - now rewrite String.eqb_refl.
  - destruct (String.eqb k k') eqn:E; simpl; rewrite E;
      [reflexivity | exact IH].
Qed.

Lemma dict_get_set_neq k k' v d :
  String.eqb k k' = false -> dict_get k (dict_set k' v d) = dict_get k d.
Proof.
  intros N. induction d as [|[k2 v2] d IH]; simpl.
  - now rewrite N.
  - destruct (String.eqb k' k2) eqn:E; simpl.
    + apply String.eqb_eq in E. subst k2. now rewrite N.
    + now rewrite IH.
Qed.

Lemma dict_get_pop_neq k k' d :
  String.eqb k k' = false -> dict_get k (dict_pop k' d) = dict_get k d.
Proof.
  intros N. induction d as [|[k2 v2] d IH]; simpl; [reflexivity|].
  destruct (String.eqb k' k2) eqn:E; simpl.
  - apply String.eqb_eq in E. subst k2. now rewrite N.
  - now rewrite IH.
Qed.

Lemma dict_get_None_keys k d :
  dict_get k d = None <-> ~ In k (dict_keys d).
Proof.
  induction d as [|[k' v'] d IH]; simpl.
  - tauto.
  - destruct (String.eqb_spec k k') as [->|N].
    + split; [discriminate | intros H; elim H; now left].
    + rewrite IH. split; [intros H [E|I]; [now elim N | now elim H] | tauto].
Qed.

(** Storing under a key that is not there yet appends the item. *)
Lemma dict_set_fresh k v d :
  ~ In k (dict_keys d) -> dict_set k v d = d ++ [(k, v)].
Proof.
  induction d as [|[k' v'] d IH]; simpl; intros N; [reflexivity|].
  destruct (String.eqb_spec k k') as [->|_].
  - elim N. now left.
  - rewrite IH; [reflexivity | tauto].
Qed.
End DictFacts.

(* ------------------------------------------------------------------ *)
(** ** The filters                                                      *)
(* ------------------------------------------------------------------ *)

Lemma py_eq_None_l (v : pyval) : py_eq PNone v = true -> v = PNone.
Proof. destruct v; simpl; congruence. Qed.

Lemma _filter_list_loop_records (rs : list record) (k : string) (v : pyval)
    (acc : list pyval) :
  _filter_list_loop (map PDict rs) k v acc =
  Ok (acc ++ map PDict (filter (matches k v) rs)).
Proof.
  revert acc. induction rs as [|r rs IH]; intros acc; simpl.
  - now rewrite app_nil_r.
  - unfold matches at 1, field.
    destruct (dict_get k r) as [x|]; simpl; rewrite IH;
      match goal with |- context [if ?c then _ else _] => destruct c end;
      simpl; now rewrite <- ?app_assoc.
Qed.

Lemma _filter_list_table (rs : list record) (k : string) (v : pyval) :
  _filter_list (table rs) k v = Ok (table (filter (matches k v) rs)).
Proof.
  unfold _filter_list, table. simpl.
  now rewrite _filter_list_loop_records.
Qed.

Lemma filter_all {A : Type} (f : A -> bool) (l : list A) :
  (forall x, In x l -> f x = true) -> filter f l = l.
Proof.
  induction l as [|x l IH]; simpl; intros H; [reflexivity|].
  rewrite (H x (or_introl eq_refl)), IH; auto.
Qed.

Lemma filter_none {A : Type} (f : A -> bool) (l : list A) :
  (forall x, In x l -> f x = false) -> filter f l = [].
Proof.
  induction l as [|x l IH]; simpl; intros H; [reflexivity|].
  rewrite (H x (or_introl eq_refl)), IH; auto.
Qed.

(** C8 (amended). [_filter_list] returns, in the original order, exactly
    the records [r] with [r.get(key) == value] under Python's [==]: a
    missing field reads as [None], and [True] equals [1]. For a value
    other than [None], a key absent from all records gives the empty
    list; a value that matches every record gives the list back as it
    was. *)
Theorem filter_list_keeps_python_equal (rs : list record) (k : string)
    (v : pyval) :
  _filter_list (table rs) k v = Ok (table (filter (matches k v) rs))
  /\ (v <> PNone ->
      (forall r, In r rs -> dict_get k r = None) ->
      _filter_list (table rs) k v = Ok (table []))
  /\ ((forall r, In r rs -> matches k v r = true) ->
      _filter_list (table rs) k v = Ok (table rs)).
Proof.
  rewrite _filter_list_table. split; [reflexivity | split].
  - intros Hv Habs. rewrite filter_none; [reflexivity|].
    intros r Hr. unfold matches, field. rewrite (Habs r Hr).
    destruct (py_eq PNone v) eqn:E; [|reflexivity].
    elim Hv. now apply py_eq_None_l.
  - intros Hall. now rewrite filter_all.
Qed.

(** Scenario D of the specification, and the two special cases. *)
Lemma filter_list_keeps_python_equal_witness :
  _filter_list
    (table [[("interface", PStr "eth0"); ("mac", PStr "aa:bb")];
            [("interface", PStr "eth1"); ("mac", PStr "cc:dd")]])
    "interface" (PStr "eth1")
  = Ok (table [[("interface", PStr "eth1"); ("mac", PStr "cc:dd")]])
  /\ _filter_list (table [[("mac", PStr "aa:bb")]]) "interface" (PStr "eth1")
     = Ok (table [])
  /\ _filter_list (table [[("vlan", PInt 10)]; [("vlan", PInt 10)]])
       "vlan" (PInt 10)
     = Ok (table [[("vlan", PInt 10)]; [("vlan", PInt 10)]]).
Proof.
  split; [|split].
  - exact (proj1 (filter_list_keeps_python_equal _ _ _)).
  - apply (proj1 (proj2 (filter_list_keeps_python_equal _ _ _))).
    + discriminate.
    + intros r [<-|[]]. reflexivity.
  - apply (proj2 (proj2 (filter_list_keeps_python_equal _ _ _))).
    intros r [<-|[<-|[]]]; reflexivity.
Defined.

(** C8 as stated fails twice. With the value [None] a key that no record
    has matches every record; and [True] selects a record whose field is
    the integer [1], which is not the value asked for. *)
Lemma filter_list_exact_equality_counterexample :
  (dict_get "interface" [("mac", PStr "aa:bb")] = None
   /\ _filter_list (table [[("mac", PStr "aa:bb")]]) "interface" PNone
      = Ok (table [[("mac", PStr "aa:bb")]])
   /\ _filter_list (table [[("mac", PStr "aa:bb")]]) "interface" PNone
      <> Ok (table []))
  /\ (dict_get "vlan" [("vlan", PInt 1)] <> Some (PBool true)
      /\ _filter_list (table [[("vlan", PInt 1)]]) "vlan" (PBool true)
         = Ok (table [[("vlan", PInt 1)]])).
Proof.
  repeat split; try reflexivity; discriminate.
Qed.

Lemma truthy_table (rs : list record) :
  truthy (table rs) = match rs with [] => false | _ :: _ => true end.
Proof. now destruct rs. Qed.

Lemma filtered_groups_cons (k : string) (v : pyval) (key : string)
    (rs : list record) (gs : list (string * list record)) :
  filtered_groups k v ((key, rs) :: gs) =
  match filter (matches k v) rs with
  | [] => filtered_groups k v gs
  | r :: rs' => (key, r :: rs') :: filtered_groups k v gs
  end.
Proof.
  unfold filtered_groups. cbn [filter]. unfold has_match at 1. cbn [snd].
  destruct (filter (matches k v) rs) eqn:E; [reflexivity|].
  cbn [map fst snd]. now rewrite E.
Qed.

Lemma _filter_dict_loop_groups (gs : list (string * list record))
    (k : string) (v : pyval) (acc : dict pyval) :
  NoDup (map fst gs) ->
  (forall g, In g gs -> ~ In (fst g) (dict_keys acc)) ->
  _filter_dict_loop (map (fun g => (fst g, table (snd g))) gs) k v acc =
  Ok (acc ++ map (fun g => (fst g, table (snd g))) (filtered_groups k v gs)).
Proof.
  revert acc. induction gs as [|[key rs] gs IH]; intros acc Hnd Hfresh.
  - simpl. now rewrite app_nil_r.
  - inversion Hnd as [|? ? Hkey Hnd']; subst.
    cbn [map fst snd _filter_dict_loop].
    rewrite _filter_list_table. cbn [rbind].
    rewrite truthy_table, filtered_groups_cons.
    destruct (filter (matches k v) rs) as [|r rs'] eqn:E.
    + apply IH; [exact Hnd'|].
      intros g Hg. apply Hfresh. now right.
    + rewrite dict_set_fresh by (apply (Hfresh (key, rs)); now left).
      rewrite IH; [|exact Hnd'|].
      * cbn [map fst snd]. now rewrite <- app_assoc.
      * intros g Hg. unfold dict_keys. rewrite map_app, in_app_iff.
        cbn [map fst In]. intros [Hin|[Heq|[]]].
        -- apply (Hfresh g); [now right | exact Hin].
        -- apply Hkey. rewrite Heq. now apply in_map.
Qed.

Lemma dict_get_filtered_groups (k : string) (v : pyval)
    (gs : list (string * list record)) (key : string) (rs : list record) :
  NoDup (map fst gs) ->
  In (key, rs) gs ->
  dict_get key (filtered_groups k v gs) =
  if has_match k v (key, rs) then Some (filter (matches k v) rs) else None.
Proof.
  induction gs as [|[key' rs'] gs IH]; intros Hnd Hin; [destruct Hin|].
  inversion Hnd as [|? ? Hkey Hnd']; subst.
  unfold filtered_groups. cbn [filter].
  destruct Hin as [Heq|Hin].
  - inversion Heq; subst.
    destruct (has_match k v (key, rs)) eqn:E.
    + cbn [map fst snd dict_get]. now rewrite String.eqb_refl.
    + apply dict_get_None_keys. unfold dict_keys.
      rewrite map_map. cbn [fst]. intros Hin. apply Hkey.
      apply in_map_iff in Hin. destruct Hin as (g & <- & Hg).
      apply in_map. now apply filter_In in Hg.
  - assert (String.eqb key key' = false) as N.
    { apply String.eqb_neq. intros ->. apply Hkey.
      now apply (in_map fst) in Hin. }
    destruct (has_match k v (key', rs')).
    + cbn [map fst snd dict_get]. rewrite N. now apply IH.
    + now apply IH.
Qed.

Lemma dict_get_grouped (gs : list (string * list record)) (key : string) :
  dict_get key (map (fun g => (fst g, table (snd g))) gs) =
  option_map table (dict_get key gs).
Proof.
  induction gs as [|[key' rs] gs IH]; [reflexivity|].
  cbn [map fst snd dict_get]. now destruct (String.eqb key key').
Qed.

(** C9. On a mapping of groups (a dictionary, so with distinct keys),
    [_filter_dict] returns a dictionary that binds every group with a
    match to what [_filter_list] returns on its list. A group whose
    filtered list is empty is not a key of the result, no key is added,
    the result has as many keys as there are groups with a match, and
    the keys come in the order of the input. *)
Theorem filter_dict_keeps_matching_groups
    (gs : list (string * list record)) (k : string) (v : pyval)
    (Hkeys : NoDup (map fst gs)) :
  exists out,
    _filter_dict (grouped gs) k v = Ok (PDict out)
    /\ PDict out = grouped (filtered_groups k v gs)
    /\ (forall key rs, In (key, rs) gs ->
          exists filtered,
            _filter_list (table rs) k v = Ok filtered
            /\ dict_get key out =
               if truthy filtered then Some filtered else None)
    /\ (forall key, ~ In key (map fst gs) -> dict_get key out = None)
    /\ List.length out = List.length (filter (has_match k v) gs)
    /\ dict_keys out = map fst (filter (has_match k v) gs).
Proof.
  eexists. split; [|split; [reflexivity | split; [|split; [|split]]]].
  - unfold _filter_dict, grouped. cbn [py_iteritems rbind].
    rewrite _filter_dict_loop_groups; [reflexivity | exact Hkeys |].
    intros g _ [].
  - intros key rs Hin. exists (table (filter (matches k v) rs)).
    split; [apply _filter_list_table|].
    rewrite dict_get_grouped.
    rewrite (@dict_get_filtered_groups k v gs key rs Hkeys Hin), truthy_table.
    unfold has_match. cbn [snd].
    now destruct (filter (matches k v) rs).
  - intros key Hkey. rewrite dict_get_grouped.
    replace (dict_get key (filtered_groups k v gs)) with (@None (list record));
      [reflexivity|].
    symmetry. apply dict_get_None_keys.
    unfold dict_keys, filtered_groups. rewrite map_map. cbn [fst].
    intros Hin. apply Hkey. apply in_map_iff in Hin.
    destruct Hin as (g & <- & Hg). apply in_map. now apply filter_In in Hg.
  - unfold filtered_groups. now rewrite !length_map.
  - unfold dict_keys, filtered_groups.
    now rewrite !map_map.
Qed.

(** Three groups of which two have a record on VLAN 10: two keys, in the
    order of the input. *)
Lemma filter_dict_keeps_matching_groups_witness :
  _filter_dict
    (grouped [("xe-0", [[("vlan", PInt 10)]; [("vlan", PInt 20)]]);
              ("xe-1", [[("vlan", PInt 30)]]);
              ("xe-2", [[("vlan", PInt 10)]])])
    "vlan" (PInt 10)
  = Ok (grouped [("xe-0", [[("vlan", PInt 10)]]);
                 ("xe-2", [[("vlan", PInt 10)]])]).
Proof.
  destruct (@filter_dict_keeps_matching_groups
              [("xe-0", [[("vlan", PInt 10)]; [("vlan", PInt 20)]]);
               ("xe-1", [[("vlan", PInt 30)]]);
               ("xe-2", [[("vlan", PInt 10)]])]
              "vlan" (PInt 10))
    as (out & Hrun & Hout & _).
  - repeat constructor; simpl; intuition discriminate.
  - rewrite Hrun, Hout. reflexivity.
Defined.

(* ------------------------------------------------------------------ *)
(** ** The table getters                                                *)
(* ------------------------------------------------------------------ *)

Section Getters.
Variable World : Type.
Variable napalm_call : string -> dict pyval -> World -> pyval * World.

Ltac run_call H :=
  unfold bind, call, lift, ret; cbn [world calls]; rewrite H.

Lemma arp_failure (w w' : World) (log : list string) (e ok : pyval)
    (interface ipaddr macaddr : pyval) :
  napalm_call "get_arp_table" [] w = (e, w') ->
  py_get e "result" PNone = Ok ok ->
  truthy ok = false ->
  arp napalm_call interface ipaddr macaddr (mkState w log) =
  (Ok e, mkState w' (log ++ ["get_arp_table"])).
Proof.
  intros Hcall Hres Hok. unfold arp. run_call Hcall.
  rewrite Hres, Hok. reflexivity.
Qed.

Lemma mac_failure (w w' : World) (log : list string) (e ok : pyval)
    (address interface vlan : pyval) :
  napalm_call "get_mac_address_table" [] w = (e, w') ->
  py_get e "result" PNone = Ok ok ->
  truthy ok = false ->
  mac napalm_call address interface vlan (mkState w log) =
  (Ok e, mkState w' (log ++ ["get_mac_address_table"])).
Proof.
  intros Hcall Hres Hok. unfold mac. run_call Hcall.
  rewrite Hres, Hok. reflexivity.
Qed.

Lemma lldp_failure (w w' : World) (log : list string) (e ok : pyval)
    (interface : string) :
  napalm_call "get_lldp_neighbors_detail" [] w = (e, w') ->
  py_get e "result" PNone = Ok ok ->
  truthy ok = false ->
  lldp napalm_call interface (mkState w log) =
  (Ok e, mkState w' (log ++ ["get_lldp_neighbors_detail"])).
Proof.
  intros Hcall Hres Hok. unfold lldp. run_call Hcall.
  rewrite Hres, Hok. reflexivity.
Qed.

Lemma filter_if_table (b : bool) (k : string) (v : pyval)
    (rs : list record) :
  (if b then _filter_list (table rs) k v else Ok (table rs)) =
  Ok (table (filter_if b k v rs)).
Proof. destruct b; [apply _filter_list_table | reflexivity]. Qed.

Lemma arp_success (w w' : World) (log : list string) (d : dict pyval)
    (ok : pyval) (rs : list record) (interface ipaddr macaddr : pyval) :
  napalm_call "get_arp_table" [] w = (PDict d, w') ->
  dict_get "result" d = Some ok ->
  truthy ok = true ->
  dict_get "out" d = Some (table rs) ->
  arp napalm_call interface ipaddr macaddr (mkState w log) =
  (Ok (PDict (dict_set "out"
         (table (filter_if (truthy macaddr) "mac" macaddr
                  (filter_if (truthy ipaddr) "ip" ipaddr
                     (filter_if (truthy interface) "interface" interface
                        rs)))) d)),
   mkState w' (log ++ ["get_arp_table"])).
Proof.
  intros Hcall Hres Hok Hout. unfold arp. run_call Hcall.
  cbn [py_get]. rewrite Hres, Hok, Hout. cbn [negb].
  now rewrite !filter_if_table.
Qed.

Lemma mac_success (w w' : World) (log : list string) (d : dict pyval)
    (ok : pyval) (rs : list record) (address interface vlan : pyval) :
  napalm_call "get_mac_address_table" [] w = (PDict d, w') ->
  dict_get "result" d = Some ok ->
  truthy ok = true ->
  dict_get "out" d = Some (table rs) ->
  mac napalm_call address interface vlan (mkState w log) =
  (Ok (PDict (dict_set "out"
         (table (filter_if (truthy interface) "interface" interface
                  (filter_if (truthy address) "mac" address
                     (filter_if (truthy vlan && isinstance_int vlan)
                        "vlan" vlan rs)))) d)),
   mkState w' (log ++ ["get_mac_address_table"])).
Proof.
  intros Hcall Hres Hok Hout. unfold mac. run_call Hcall.
  cbn [py_get]. rewrite Hres, Hok, Hout. cbn [negb].
  now rewrite !filter_if_table.
Qed.

Lemma py_get_field (d : dict pyval) (k : string) :
  py_get (PDict d) k PNone = Ok (field d k).
Proof. unfold py_get, field. now destruct (dict_get k d). Qed.

(** C10. When the driver call of [arp], [mac] or [lldp] reports a
    false result, the function returns the driver's envelope as it is,
    after that single call and without touching its output. On a true
    result the output of [arp] and [mac] is replaced by the filtered
    table, each filter applied only when its argument is true, and the
    VLAN filter of [mac] only when [vlan] is a nonzero integer. *)
Theorem failed_getter_returns_envelope_unchanged
    (w w' : World) (log : list string) (d : dict pyval)
    (a b c : pyval) (interface : string)
    (Hresult : truthy (field d "result") = false) :
  (napalm_call "get_arp_table" [] w = (PDict d, w') ->
   arp napalm_call a b c (mkState w log) =
   (Ok (PDict d), mkState w' (log ++ ["get_arp_table"])))
  /\ (napalm_call "get_mac_address_table" [] w = (PDict d, w') ->
      mac napalm_call a b c (mkState w log) =
      (Ok (PDict d), mkState w' (log ++ ["get_mac_address_table"])))
  /\ (napalm_call "get_lldp_neighbors_detail" [] w = (PDict d, w') ->
      lldp napalm_call interface (mkState w log) =
      (Ok (PDict d), mkState w' (log ++ ["get_lldp_neighbors_detail"])))
  /\ (forall (e : dict pyval) (rs : list record),
        truthy (field e "result") = true ->
        dict_get "out" e = Some (table rs) ->
        (napalm_call "get_arp_table" [] w = (PDict e, w') ->
         arp napalm_call a b c (mkState w log) =
         (Ok (PDict (dict_set "out"
                (table (filter_if (truthy c) "mac" c
                         (filter_if (truthy b) "ip" b
                            (filter_if (truthy a) "interface" a rs)))) e)),
          mkState w' (log ++ ["get_arp_table"])))
        /\ (napalm_call "get_mac_address_table" [] w = (PDict e, w') ->
            mac napalm_call a b c (mkState w log) =
            (Ok (PDict (dict_set "out"
                   (table (filter_if (truthy b) "interface" b
                            (filter_if (truthy a) "mac" a
                               (filter_if (truthy c && isinstance_int c)
                                  "vlan" c rs)))) e)),
             mkState w' (log ++ ["get_mac_address_table"])))).
Proof.
  repeat split.
  - intros H. eapply arp_failure; eauto using py_get_field.
  - intros H. eapply mac_failure; eauto using py_get_field.
  - intros H. eapply lldp_failure; eauto using py_get_field.
  - intros Hcall. unfold field in H.
    destruct (dict_get "result" e) as [ok|] eqn:E; [|discriminate].
    eapply arp_success; eauto.
  - intros Hcall. unfold field in H.
    destruct (dict_get "result" e) as [ok|] eqn:E; [|discriminate].
    eapply mac_success; eauto.
Qed.

(** C7 (amended). With a non-empty interface name and a true driver
    result, [lldp] replaces the neighbor table by a dictionary with
    exactly one key, the name asked for, bound to what the table has
    under that name, unfiltered, or to [None] when the table has no
    such key: the key is never left out. *)
Theorem lldp_keeps_the_named_key
    (w w' : World) (log : list string) (d neighbors : dict pyval)
    (interface : string)
    (Hcall : napalm_call "get_lldp_neighbors_detail" [] w = (PDict d, w'))
    (Hresult : truthy (field d "result") = true)
    (Hout : dict_get "out" d = Some (PDict neighbors))
    (Hname : interface <> "") :
  lldp napalm_call interface (mkState w log) =
  (Ok (PDict (dict_set "out"
         (PDict [(interface, field neighbors interface)]) d)),
   mkState w' (log ++ ["get_lldp_neighbors_detail"])).
Proof.
  unfold lldp. run_call Hcall. rewrite py_get_field, Hresult.
  cbn [negb py_get]. rewrite Hout.
  apply String.eqb_neq in Hname. cbn [truthy]. rewrite Hname.
  cbn [negb]. now rewrite py_get_field.
Qed.

End Getters.

(* ------------------------------------------------------------------ *)
(** ** Drift detection and reconciliation                               *)
(* ------------------------------------------------------------------ *)

Section Reconciler.
Variable World : Type.
Variable napalm_call : string -> dict pyval -> World -> pyval * World.
Variable py_str : pyval -> string.
Hypothesis py_str_string : forall s, py_str (PStr s) = s.

Ltac run_call H :=
  unfold bind, call, lift, ret; cbn [world calls]; rewrite H.

Lemma config_changed_run (w w' : World) (log : list string)
    (c : dict pyval) :
  napalm_call "compare_config" [] w = (PDict c, w') ->
  config_changed napalm_call (mkState w log) =
  (Ok (if truthy (field c "result")
       then if truthy (field c "out")
            then (true, PStr "")
            else (false, PStr "Configuration was not changed on the device.")
       else (false, field c "comment")),
   mkState w' (log ++ ["compare_config"])).
Proof.
  intros Hcall. unfold config_changed, compare_config. run_call Hcall.
  rewrite py_get_field.
  destruct (truthy (field c "result")); rewrite py_get_field;
    [destruct (truthy (field c "out"))|]; reflexivity.
Qed.

(** C6. [config_changed] has three outcomes, read off the envelope of
    [compare_config]: a false result gives [(False, comment)] with the
    envelope's comment, a true result with a non-empty output gives
    [(True, '')], and a true result with an empty output gives
    [(False, 'Configuration was not changed on the device.')]. *)
Theorem config_changed_three_outcomes (w w' : World) (log : list string)
    (c : dict pyval)
    (Hcall : napalm_call "compare_config" [] w = (PDict c, w')) :
  (truthy (field c "result") = false ->
   config_changed napalm_call (mkState w log) =
   (Ok (false, field c "comment"), mkState w' (log ++ ["compare_config"])))
  /\ (truthy (field c "result") = true ->
      truthy (field c "out") = true ->
      config_changed napalm_call (mkState w log) =
      (Ok (true, PStr ""), mkState w' (log ++ ["compare_config"])))
  /\ (truthy (field c "result") = true ->
      truthy (field c "out") = false ->
      config_changed napalm_call (mkState w log) =
      (Ok (false, PStr "Configuration was not changed on the device."),
       mkState w' (log ++ ["compare_config"]))).
Proof.
  rewrite (config_changed_run log Hcall).
  repeat split; intros; repeat
    match goal with H : truthy _ = _ |- _ => rewrite H; clear H end;
    reflexivity.
Qed.

(** C5 (amended). When drift is present and the commit fails,
    [config_control] returns [False] with a comment that embeds the
    reason of the commit failure and announces the rollback, whatever
    the rollback does. A failed rollback appends its reason. A
    successful rollback appends nothing: the comment is the text built
    before [rollback] was called, and the result stays [False]. *)
Theorem config_control_commit_failure
    (w w1 w2 w3 : World) (log : list string) (c m r : dict pyval)
    (reason : string)
    (Hcompare : napalm_call "compare_config" [] w = (PDict c, w1))
    (Hdrift : truthy (field c "result") = true
              /\ truthy (field c "out") = true)
    (Hcommit : napalm_call "commit_config" [] w1 = (PDict m, w2))
    (Hfailed : truthy (field m "result") = false)
    (Hreason : field m "comment" = PStr reason)
    (Hrollback : napalm_call "rollback" [] w2 = (PDict r, w3)) :
  exists comment,
    config_control napalm_call py_str (mkState w log) =
    (Ok (false, PStr comment),
     mkState w3 (log ++ ["compare_config"; "commit_config"; "rollback"]))
    /\ contains reason comment
    /\ contains "Will try to rollback now!" comment
    /\ (truthy (field r "result") = true ->
        comment = commit_failure_comment reason)
    /\ (truthy (field r "result") = false ->
        forall why, field r "comment" = PStr why ->
        comment =
        (commit_failure_comment reason ++ nl ++
         "Cannot rollback! " ++ why)%string
        /\ contains why comment).
Proof.
  destruct Hdrift as [Hres Hout].
  assert (config_control napalm_call py_str (mkState w log) =
          (Ok (false,
               PStr (if truthy (field r "result")
                     then commit_failure_comment reason
                     else (commit_failure_comment reason ++ nl ++
                           "Cannot rollback! " ++
                           py_str (field r "comment"))%string)),
           mkState w3
             (log ++ ["compare_config"; "commit_config"; "rollback"])))
    as Hrun.
  { unfold config_control. unfold bind at 1.
    rewrite (config_changed_run log Hcompare), Hres, Hout.
    cbn [negb]. unfold commit, rollback. run_call Hcommit.
    rewrite py_get_field, Hfailed. cbn [negb].
    rewrite py_get_field, Hreason, py_str_string.
    cbn [world calls]. rewrite Hrollback.
    rewrite py_get_field, <- !app_assoc. cbn [app].
    destruct (truthy (field r "result")); cbn [negb];
      [reflexivity | now rewrite py_get_field]. }
  assert (contains reason (commit_failure_comment reason)) as Hc1.
  { unfold commit_failure_comment.
    apply contains_append_l, contains_here. }
  assert (contains "Will try to rollback now!"
            (commit_failure_comment reason)) as Hc2.
  { unfold commit_failure_comment.
    do 4 apply contains_append_l.
    apply contains_append_l with (before := "        ").
    apply contains_refl. }
  rewrite Hrun.
  destruct (truthy (field r "result")); eexists; split; try reflexivity.
  - split; [assumption|]. split; [assumption|].
    split; [reflexivity | discriminate].
  - split; [now apply contains_append_r|].
    split; [now apply contains_append_r|].
    split; [discriminate|].
    intros _ why Hwhy. rewrite Hwhy, py_str_string. split; [reflexivity|].
    do 3 apply contains_append_l. apply contains_refl.
Qed.

End Reconciler.

(* ------------------------------------------------------------------ *)
(** ** The configuration transaction                                    *)
(* ------------------------------------------------------------------ *)

Lemma py_get_or (d : dict pyval) (k : string) (default : pyval) :
  py_get (PDict d) k default = Ok (get_or d k default).
Proof. unfold py_get, get_or. now destruct (dict_get k d). Qed.

Lemma truthy_get_or_false (d : dict pyval) (k : string) :
  truthy (get_or d k (PBool false)) = truthy (field d k).
Proof. unfold get_or, field. now destruct (dict_get k d). Qed.

Lemma py_getitem_some (d : dict pyval) (k : string) (v : pyval) :
  dict_get k d = Some v -> py_getitem (PDict d) k = Ok v.
Proof. intros H. unfold py_getitem. now rewrite H. Qed.

Lemma py_iadd_item_str (d : dict pyval) (k : string) (old new : string) :
  dict_get k d = Some (PStr old) ->
  py_iadd_item (PDict d) k (Ok (PStr new)) =
  Ok (PDict (dict_set k (PStr (old ++ new)) d)).
Proof.
  intros H. unfold py_iadd_item. now rewrite (py_getitem_some _ _ H).
Qed.

Lemma item_or_str (d : dict pyval) (k : string) (comment default : string) :
  dict_get k d = Some (PStr comment) ->
  item_or (PDict d) k default = Ok (PStr (or_default comment default)).
Proof.
  intros H. unfold item_or, or_default.
  rewrite (py_getitem_some _ _ H). cbn [rbind].
  now destruct (truthy (PStr comment)).
Qed.

Ltac dict_simpl :=
  repeat first
    [ rewrite dict_get_set_eq
    | rewrite dict_get_set_neq by reflexivity
    | rewrite dict_get_pop_neq by reflexivity ].

Lemma after_compare_comment (loaded c : dict pyval) :
  dict_get "comment" (after_compare loaded c) = dict_get "comment" loaded.
Proof. unfold after_compare. destruct (truthy _); now dict_simpl. Qed.

Lemma after_compare_result (loaded c : dict pyval) :
  dict_get "result" (after_compare loaded c) = dict_get "result" loaded.
Proof. unfold after_compare. destruct (truthy _); now dict_simpl. Qed.

Lemma after_compare_already (loaded c : dict pyval) :
  dict_get "already_configured" (after_compare loaded c) = Some (PBool false).
Proof. unfold after_compare. destruct (truthy _); now dict_simpl. Qed.

Lemma after_compare_diff (loaded c : dict pyval) :
  get_or (after_compare loaded c) "diff" (PStr "") = accumulated_diff loaded c.
Proof.
  unfold after_compare, accumulated_diff, get_or.
  destruct (truthy _); now dict_simpl.
Qed.

Section Transaction.
Variable World : Type.
Variable napalm_call : string -> dict pyval -> World -> pyval * World.

Lemma bind_lift_ok {A B : Type} (a : A) (k : A -> M World B)
    (st : state World) :
  bind (lift (Ok a)) k st = k a st.
Proof. reflexivity. Qed.

Lemma bind_call {B : Type} (method : string) (kwargs : dict pyval)
    (k : pyval -> M World B) (w w' : World) (log : list string)
    (e : pyval) :
  napalm_call method kwargs w = (e, w') ->
  bind (call napalm_call method kwargs) k (mkState w log) =
  k e (mkState w' (log ++ [method])).
Proof. intros H. unfold bind, call. cbn [world calls]. now rewrite H. Qed.

(** The lines of [_config_logic] between the call of [compare_config]
    and the test of the staging result. *)
Lemma compare_step {B : Type} (loaded c : dict pyval)
    (k : pyval -> M World B) (st : state World) :
  bind (lift (py_get (PDict c) "result" (PBool false)))
    (fun compared =>
       bind
         (lift
            (if truthy compared
             then (out <- py_get (PDict c) "out" PNone ;;
                   with_diff <-
                     py_setitem
                       (PDict (dict_set "already_configured" (PBool false)
                                 loaded))
                       "diff" out ;;
                   py_pop with_diff "out")%result
             else Ok (PDict (dict_set "already_configured" (PBool false)
                               loaded))))
         k) st =
  k (PDict (after_compare loaded c)) st.
Proof.
  rewrite py_get_or, bind_lift_ok, truthy_get_or_false.
  unfold after_compare.
  destruct (truthy (field c "result")); [|reflexivity].
  now rewrite py_get_field.
Qed.

Lemma field_after_compare_result (loaded c : dict pyval) :
  field (after_compare loaded c) "result" = field loaded "result".
Proof. unfold field. now rewrite after_compare_result. Qed.

Lemma get_or_set_neq (d : dict pyval) (k k' : string)
    (v default : pyval) :
  String.eqb k k' = false ->
  get_or (dict_set k' v d) k default = get_or d k default.
Proof. intros N. unfold get_or. now rewrite dict_get_set_neq. Qed.

Ltac lookup :=
  dict_simpl;
  rewrite ?after_compare_comment, ?after_compare_result,
    ?after_compare_already;
  first [eassumption | reflexivity].

Ltac step :=
  first
    [ rewrite bind_lift_ok
    | rewrite py_get_or
    | rewrite truthy_get_or_false
    | rewrite field_after_compare_result
    | rewrite get_or_set_neq by reflexivity
    | rewrite after_compare_diff
    | erewrite py_getitem_some by lookup
    | erewrite item_or_str by lookup
    | erewrite py_iadd_item_str by lookup
    | progress cbn [py_setitem negb orb andb Nat.ltb Nat.leb] ].

Ltac start Hcompare :=
  unfold _config_logic, compare_config, discard_config, commit;
  cbn [py_setitem]; rewrite bind_lift_ok;
  rewrite (bind_call _ _ Hcompare);
  rewrite compare_step;
  repeat step.

(** The branch taken when staging failed or in test mode. *)
Lemma discard_branch
    (w w1 w2 : World) (log : list string) (loaded c x : dict pyval)
    (msg xmsg : string) (test commit_config : bool) (n : nat) :
  negb (truthy (field loaded "result")) || test = true ->
  dict_get "comment" loaded = Some (PStr msg) ->
  napalm_call "compare_config" [] w = (PDict c, w1) ->
  py_len (accumulated_diff loaded c) = Ok n ->
  napalm_call "discard_config" [] w1 = (PDict x, w2) ->
  (truthy (field x "result") = false ->
   dict_get "comment" x = Some (PStr xmsg)) ->
  exists final,
    _config_logic napalm_call (PDict loaded) test commit_config
      (mkState w log) =
    (Ok (PDict final),
     mkState w2 (log ++ ["compare_config"; "discard_config"]))
    /\ dict_get "comment" final =
       Some (PStr (with_newline msg ++
                   if truthy (field x "result")
                   then "Configuration discarded."
                   else or_default xmsg "Unable to discard config."))
    /\ dict_get "already_configured" final = Some (PBool (Nat.eqb n 0))
    /\ dict_get "result" final =
       (if truthy (field x "result")
        then dict_get "result" loaded
        else Some (PBool false)).
Proof.
  intros Hbranch Hmsg Hcompare Hdiff Hdiscard Hxmsg.
  start Hcompare. rewrite Hbranch. repeat step.
  unfold with_newline.
  destruct (truthy (PStr msg)) eqn:Hnl; repeat step; rewrite Hdiff;
    repeat step; destruct n as [|n]; repeat step;
    rewrite (bind_call _ _ Hdiscard); repeat step;
    destruct (truthy (field x "result")) eqn:Hx;
    try specialize (Hxmsg eq_refl); repeat step;
    unfold ret; rewrite <- app_assoc; cbn [app Nat.eqb];
    (eexists; split; [reflexivity|]); repeat split; lookup.
Qed.

(** The commit branch: a diff to commit and a commit that fails. *)
Lemma commit_failed_branch
    (w w1 w2 w3 : World) (log : list string) (loaded c m x : dict pyval)
    (msg mmsg xmsg : string) (n : nat) :
  truthy (field loaded "result") = true ->
  dict_get "comment" loaded = Some (PStr msg) ->
  napalm_call "compare_config" [] w = (PDict c, w1) ->
  py_len (accumulated_diff loaded c) = Ok n ->
  0 < n ->
  napalm_call "commit_config" [] w1 = (PDict m, w2) ->
  truthy (field m "result") = false ->
  dict_get "comment" m = Some (PStr mmsg) ->
  napalm_call "discard_config" [] w2 = (PDict x, w3) ->
  dict_get "comment" x = Some (PStr xmsg) ->
  exists final,
    _config_logic napalm_call (PDict loaded) false true (mkState w log) =
    (Ok (PDict final),
     mkState w3
       (log ++ ["compare_config"; "commit_config"; "discard_config"]))
    /\ dict_get "comment" final =
       Some (PStr (msg ++ or_default mmsg "Unable to commit config." ++
                   nl ++ or_default xmsg "Unable to discard config."))
    /\ dict_get "result" final = Some (PBool false)
    /\ dict_get "already_configured" final = Some (PBool false).
Proof.
  intros Hloaded Hmsg Hcompare Hdiff Hn Hcommit Hfailed Hmmsg Hdiscard Hxmsg.
  start Hcompare. rewrite Hloaded. repeat step. rewrite Hdiff.
  destruct n as [|n]; [inversion Hn|]. repeat step.
  rewrite (bind_call _ _ Hcommit). repeat step. rewrite Hfailed.
  repeat step. rewrite (bind_call _ _ Hdiscard). repeat step.
  unfold ret. rewrite <- !app_assoc. cbn [app].
  eexists; split; [reflexivity|]. rewrite !append_assoc.
  repeat split; lookup.
Qed.

(** The commit branch: a diff to commit and a commit that succeeds. *)
Lemma commit_ok_branch
    (w w1 w2 : World) (log : list string) (loaded c m : dict pyval)
    (n : nat) :
  truthy (field loaded "result") = true ->
  napalm_call "compare_config" [] w = (PDict c, w1) ->
  py_len (accumulated_diff loaded c) = Ok n ->
  0 < n ->
  napalm_call "commit_config" [] w1 = (PDict m, w2) ->
  truthy (field m "result") = true ->
  _config_logic napalm_call (PDict loaded) false true (mkState w log) =
  (Ok (PDict (after_compare loaded c)),
   mkState w2 (log ++ ["compare_config"; "commit_config"])).
Proof.
  intros Hloaded Hcompare Hdiff Hn Hcommit Hok.
  start Hcompare. rewrite Hloaded. repeat step. rewrite Hdiff.
  destruct n as [|n]; [inversion Hn|]. repeat step.
  rewrite (bind_call _ _ Hcommit). repeat step. rewrite Hok.
  repeat step. unfold ret. now rewrite <- app_assoc.
Qed.

(** The commit branch: nothing to commit, and the discard succeeds. *)
Lemma empty_diff_discarded_branch
    (w w1 w2 : World) (log : list string) (loaded c x : dict pyval) :
  truthy (field loaded "result") = true ->
  napalm_call "compare_config" [] w = (PDict c, w1) ->
  py_len (accumulated_diff loaded c) = Ok 0 ->
  napalm_call "discard_config" [] w1 = (PDict x, w2) ->
  truthy (field x "result") = true ->
  exists final,
    _config_logic napalm_call (PDict loaded) false true (mkState w log) =
    (Ok (PDict final),
     mkState w2 (log ++ ["compare_config"; "discard_config"]))
    /\ dict_get "already_configured" final = Some (PBool true)
    /\ dict_get "comment" final = Some (PStr "Already configured.")
    /\ dict_get "result" final = dict_get "result" loaded.
Proof.
  intros Hloaded Hcompare Hdiff Hdiscard Hok.
  start Hcompare. rewrite Hloaded. repeat step. rewrite Hdiff.
  repeat step. rewrite (bind_call _ _ Hdiscard). repeat step.
  rewrite Hok. repeat step. unfold ret. rewrite <- app_assoc. cbn [app].
  eexists; split; [reflexivity|]. repeat split; lookup.
Qed.

(** The commit branch: nothing to commit, and the discard fails. *)
Lemma empty_diff_discard_failed_branch
    (w w1 w2 : World) (log : list string) (loaded c x : dict pyval)
    (msg xmsg : string) :
  truthy (field loaded "result") = true ->
  dict_get "comment" loaded = Some (PStr msg) ->
  napalm_call "compare_config" [] w = (PDict c, w1) ->
  py_len (accumulated_diff loaded c) = Ok 0 ->
  napalm_call "discard_config" [] w1 = (PDict x, w2) ->
  truthy (field x "result") = false ->
  dict_get "comment" x = Some (PStr xmsg) ->
  exists final,
    _config_logic napalm_call (PDict loaded) false true (mkState w log) =
    (Ok (PDict final),
     mkState w2 (log ++ ["compare_config"; "discard_config"]))
    /\ dict_get "already_configured" final = Some (PBool false)
    /\ dict_get "comment" final =
       Some (PStr (msg ++ or_default xmsg "Unable to discard config."))
    /\ dict_get "result" final = Some (PBool false).
Proof.
  intros Hloaded Hmsg Hcompare Hdiff Hdiscard Hfailed Hxmsg.
  start Hcompare. rewrite Hloaded. repeat step. rewrite Hdiff.
  repeat step. rewrite (bind_call _ _ Hdiscard). repeat step.
  rewrite Hfailed. repeat step. unfold ret. rewrite <- app_assoc.
  cbn [app]. eexists; split; [reflexivity|]. repeat split; lookup.
Qed.

(** Staging succeeded, no test mode and no commit asked for: nothing
    is called after [compare_config]. *)
Lemma no_commit_branch
    (w w1 : World) (log : list string) (loaded c : dict pyval) :
  truthy (field loaded "result") = true ->
  napalm_call "compare_config" [] w = (PDict c, w1) ->
  _config_logic napalm_call (PDict loaded) false false (mkState w log) =
  (Ok (PDict (after_compare loaded c)),
   mkState w1 (log ++ ["compare_config"])).
Proof.
  intros Hloaded Hcompare. start Hcompare. rewrite Hloaded.
  repeat step. reflexivity.
Qed.









(** C3. In test mode with a non-empty diff and a discard that
    succeeds, [_config_logic] returns [already_configured = False], a
    comment that ends in ['Configuration discarded.'] and the [result]
    the staging step had set, which may be true. *)
Theorem test_mode_discards_nonempty_diff
    (w w1 w2 : World) (log : list string) (loaded c x : dict pyval)
    (msg : string) (commit_config : bool) (n : nat)
    (Hmsg : dict_get "comment" loaded = Some (PStr msg))
    (Hcompare : napalm_call "compare_config" [] w = (PDict c, w1))
    (Hdiff : py_len (accumulated_diff loaded c) = Ok n)
    (Hnonempty : 0 < n)
    (Hdiscard : napalm_call "discard_config" [] w1 = (PDict x, w2))
    (Hdiscarded : truthy (field x "result") = true) :
  exists final comment,
    _config_logic napalm_call (PDict loaded) true commit_config
      (mkState w log) =
    (Ok (PDict final),
     mkState w2 (log ++ ["compare_config"; "discard_config"]))
    /\ dict_get "already_configured" final = Some (PBool false)
    /\ dict_get "comment" final = Some (PStr comment)
    /\ comment = (with_newline msg ++ "Configuration discarded.")%string
    /\ contains "Configuration discarded." comment
    /\ dict_get "result" final = dict_get "result" loaded.
Proof.
  destruct (@discard_branch w w1 w2 log loaded c x msg "" true
              commit_config n)
    as (final & Hrun & Hcomment & Halready & Hresult);
    [apply orb_true_r | assumption .. | |].
  { rewrite Hdiscarded. discriminate. }
  rewrite Hdiscarded in Hcomment, Hresult.
  exists final, (with_newline msg ++ "Configuration discarded.")%string.
  repeat split; try assumption.
  - rewrite Halready. destruct n; [inversion Hnonempty | reflexivity].
  - apply contains_append_l, contains_refl.
Qed.

(** C2 (amended). When staging succeeded, outside test mode, with
    commit asked for, an empty diff and a discard that succeeds,
    [_config_logic] returns [already_configured = True] and the
    comment ['Already configured.'], whatever the comment was. *)
Theorem empty_diff_reports_already_configured
    (w w1 w2 : World) (log : list string) (loaded c x : dict pyval)
    (Hstaged : truthy (field loaded "result") = true)
    (Hcompare : napalm_call "compare_config" [] w = (PDict c, w1))
    (Hempty : py_len (accumulated_diff loaded c) = Ok 0)
    (Hdiscard : napalm_call "discard_config" [] w1 = (PDict x, w2))
    (Hdiscarded : truthy (field x "result") = true) :
  exists final,
    _config_logic napalm_call (PDict loaded) false true (mkState w log) =
    (Ok (PDict final),
     mkState w2 (log ++ ["compare_config"; "discard_config"]))
    /\ dict_get "already_configured" final = Some (PBool true)
    /\ dict_get "comment" final = Some (PStr "Already configured.").
Proof.
  destruct (@empty_diff_discarded_branch w w1 w2 log loaded c x)
    as (final & Hrun & Halready & Hcomment & _); [assumption ..|].
  now exists final.
Qed.


End Transaction.

(* ------------------------------------------------------------------ *)
(** ** Runs on concrete devices                                         *)
(* ------------------------------------------------------------------ *)

(** Scenario A of the specification: a change is staged and committed. *)
Example load_config_commits :
  load_config (canned healthy) PNone (PStr "ntp peer 192.0.2.1") false true
    (start 0) =
  (Ok (PDict [("result", PBool true); ("comment", PStr "");
              ("already_configured", PBool false);
              ("diff", PStr "+ntp peer 192.0.2.1")]),
   mkState 3 ["load_merge_candidate"; "compare_config"; "commit_config"]).
Proof. reflexivity. Qed.

(** C1. The commit fails and the discard that follows succeeds, with the
    empty comment of a success. [_config_logic] does not look at the
    result of that discard: it returns [result = False] and the reason
    of the commit failure, followed by ['Unable to discard config.']
    where the confirmation of the discard should be. *)
Theorem commit_failure_reports_discard_as_failed :
  truthy (field ok_fields "result") = true
  /\ _config_logic (canned commit_fails) (PDict staged_ok) false true
       (start 0) =
     (Ok (PDict [("result", PBool false);
                 ("comment",
                  PStr ("syntax error" ++ nl ++ "Unable to discard config."));
                 ("already_configured", PBool false);
                 ("diff", PStr "+ntp peer 192.0.2.1")]),
      mkState 3 ["compare_config"; "commit_config"; "discard_config"])
  /\ ~ contains "discarded"
         ("syntax error" ++ nl ++ "Unable to discard config.").
Proof.
  split; [reflexivity | split; [reflexivity|]].
  apply not_infix_not_contains. reflexivity.
Qed.

Lemma empty_diff_reports_already_configured_witness :
  exists final,
    _config_logic (canned in_sync) (PDict staged_with_note) false true
      (start 0) =
    (Ok (PDict final), mkState 2 ["compare_config"; "discard_config"])
    /\ dict_get "already_configured" final = Some (PBool true)
    /\ dict_get "comment" final = Some (PStr "Already configured.").
Proof.
  apply (@empty_diff_reports_already_configured nat (canned in_sync)
           0 1 2 [] staged_with_note no_diff_fields ok_fields);
    reflexivity.
Defined.

(** C2 as stated fails twice: when the discard fails, and when staging
    had failed. In both runs test mode is off, commit is asked for and
    the diff is empty. *)
Lemma empty_diff_already_configured_counterexample :
  (py_len (accumulated_diff staged_ok no_diff_fields) = Ok 0
   /\ _config_logic (canned in_sync_locked) (PDict staged_ok) false true
        (start 0) =
      (Ok (PDict [("result", PBool false); ("comment", PStr "session locked");
                  ("already_configured", PBool false); ("diff", PStr "")]),
       mkState 2 ["compare_config"; "discard_config"]))
  /\ (py_len (accumulated_diff staged_failed no_diff_fields) = Ok 0
      /\ _config_logic (canned in_sync) (PDict staged_failed) false true
           (start 0) =
         (Ok (PDict [("result", PBool false);
                     ("comment",
                      PStr ("invalid syntax" ++ nl ++
                            "Configuration discarded."));
                     ("already_configured", PBool true); ("diff", PStr "")]),
          mkState 2 ["compare_config"; "discard_config"])).
Proof. repeat split. Qed.

(** Test mode on a staging step that succeeded: the change is discarded
    and [result] is still [True]. *)
Lemma test_mode_discards_nonempty_diff_witness :
  exists final comment,
    _config_logic (canned healthy) (PDict staged_with_note) true true
      (start 0) =
    (Ok (PDict final), mkState 2 ["compare_config"; "discard_config"])
    /\ dict_get "already_configured" final = Some (PBool false)
    /\ dict_get "comment" final = Some (PStr comment)
    /\ comment =
       ("candidate loaded" ++ nl ++ "Configuration discarded.")%string
    /\ contains "Configuration discarded." comment
    /\ dict_get "result" final = Some (PBool true).
Proof.
  apply (@test_mode_discards_nonempty_diff nat (canned healthy)
           0 1 2 [] staged_with_note diff_fields ok_fields
           "candidate loaded" true 19);
    solve [reflexivity | apply Nat.lt_0_succ].
Defined.


(** C4. Staging succeeded and [compare_config] fails with the message
    ['connection lost']. [_config_logic] tests the result of the
    comparison only to store the diff and has no branch for its
    failure: it goes on with an empty diff, discards, and returns
    [result = True] with the comment ['Already configured.'], in which
    the failure of the comparison does not appear. *)
Theorem compare_failure_reported_as_already_configured :
  truthy (field staged_ok "result") = true
  /\ truthy (field compare_failed_fields "result") = false
  /\ field compare_failed_fields "comment" = PStr "connection lost"
  /\ _config_logic (canned compare_fails) (PDict staged_ok) false true
       (start 0) =
     (Ok (PDict [("out", PNone); ("result", PBool true);
                 ("comment", PStr "Already configured.");
                 ("already_configured", PBool true)]),
      mkState 2 ["compare_config"; "discard_config"])
  /\ ~ contains "connection lost" "Already configured.".
Proof.
  repeat (split; [reflexivity|]).
  apply not_infix_not_contains. reflexivity.
Qed.

Lemma config_control_commit_failure_witness :
  (exists comment,
      config_control (canned commit_fails) str_of_scalar (start 0) =
      (Ok (false, PStr comment),
       mkState 3 ["compare_config"; "commit_config"; "rollback"])
      /\ contains "syntax error" comment
      /\ comment = commit_failure_comment "syntax error")
  /\ (exists comment,
        config_control (canned commit_and_rollback_fail) str_of_scalar
          (start 0) =
        (Ok (false, PStr comment),
         mkState 3 ["compare_config"; "commit_config"; "rollback"])
        /\ contains "syntax error" comment
        /\ contains "no backup" comment).
Proof.
  split.
  - destruct (@config_control_commit_failure nat (canned commit_fails)
                str_of_scalar (fun s => eq_refl) 0 1 2 3 []
                diff_fields commit_failed_fields rollback_ok_fields
                "syntax error")
      as (comment & Hrun & Hreason & _ & Hok & _);
      try solve [reflexivity | split; reflexivity].
    exists comment. split; [exact Hrun|]. split; [exact Hreason|].
    apply Hok. reflexivity.
  - destruct (@config_control_commit_failure nat
                (canned commit_and_rollback_fail)
                str_of_scalar (fun s => eq_refl) 0 1 2 3 []
                diff_fields commit_failed_fields rollback_failed_fields
                "syntax error")
      as (comment & Hrun & Hreason & _ & _ & Hfail);
      try solve [reflexivity | split; reflexivity].
    exists comment. split; [exact Hrun|]. split; [exact Hreason|].
    apply (Hfail eq_refl "no backup"). reflexivity.
Defined.

(** C5 as stated fails on its last clause. The rollback succeeds and
    answers ['Rollback complete.'], and the comment returned is the text
    built before [rollback] was called: it announces the rollback and
    confirms nothing. *)
Lemma rollback_success_not_confirmed_counterexample :
  truthy (field rollback_ok_fields "result") = true
  /\ config_control (canned commit_fails) str_of_scalar (start 0) =
     (Ok (false, PStr (commit_failure_comment "syntax error")),
      mkState 3 ["compare_config"; "commit_config"; "rollback"])
  /\ commit_failure_comment "syntax error" =
     ("Unable to commit the changes: syntax error." ++ nl ++
      "        Will try to rollback now!")%string
  /\ ~ contains "Rollback complete." (commit_failure_comment "syntax error").
Proof.
  split; [reflexivity | split; [reflexivity | split; [reflexivity|]]].
  apply not_infix_not_contains. reflexivity.
Qed.

Lemma config_changed_three_outcomes_witness :
  config_changed (canned compare_fails) (start 0) =
  (Ok (false, PStr "connection lost"), mkState 1 ["compare_config"])
  /\ config_changed (canned healthy) (start 0) =
     (Ok (true, PStr ""), mkState 1 ["compare_config"])
  /\ config_changed (canned in_sync) (start 0) =
     (Ok (false, PStr "Configuration was not changed on the device."),
      mkState 1 ["compare_config"]).
Proof.
  split; [|split].
  - apply (@config_changed_three_outcomes nat (canned compare_fails)
             0 1 [] compare_failed_fields eq_refl); reflexivity.
  - apply (@config_changed_three_outcomes nat (canned healthy)
             0 1 [] diff_fields eq_refl); reflexivity.
  - apply (@config_changed_three_outcomes nat (canned in_sync)
             0 1 [] no_diff_fields eq_refl); reflexivity.
Defined.

Lemma lldp_keeps_the_named_key_witness :
  lldp (canned tables_up) "xe-0" (start 0) =
  (Ok (PDict [("out", PDict [("xe-0", table [neighbor])]);
              ("result", PBool true); ("comment", PStr "")]),
   mkState 1 ["get_lldp_neighbors_detail"]).
Proof.
  apply (@lldp_keeps_the_named_key nat (canned tables_up) 0 1 []
           lldp_fields [("xe-0", table [neighbor]); ("xe-1", table [])]
           "xe-0");
    solve [reflexivity | discriminate].
Defined.

(** C7 as stated fails: an interface that the table does not have comes
    back as a key bound to [None], and one whose list is empty as a key
    bound to the empty list, where [_filter_dict] would leave both out. *)
Lemma lldp_keeps_empty_group_counterexample :
  lldp (canned tables_up) "xe-9" (start 0) =
  (Ok (PDict [("out", PDict [("xe-9", PNone)]);
              ("result", PBool true); ("comment", PStr "")]),
   mkState 1 ["get_lldp_neighbors_detail"])
  /\ lldp (canned tables_up) "xe-1" (start 0) =
     (Ok (PDict [("out", PDict [("xe-1", PList [])]);
                 ("result", PBool true); ("comment", PStr "")]),
      mkState 1 ["get_lldp_neighbors_detail"])
  /\ _filter_dict (PDict [("xe-1", PList [])]) "remote_port" (PStr "Eth2/2/1")
     = Ok (PDict []).
Proof. repeat split. Qed.

Lemma failed_getter_returns_envelope_unchanged_witness :
  arp (canned tables_down) (PStr "xe-3/0/2") (PStr "") (PStr "") (start 0) =
  (Ok (PDict getter_failed_fields), mkState 1 ["get_arp_table"])
  /\ mac (canned tables_down) (PStr "") (PStr "") (PInt 10) (start 0) =
     (Ok (PDict getter_failed_fields), mkState 1 ["get_mac_address_table"])
  /\ lldp (canned tables_down) "xe-0" (start 0) =
     (Ok (PDict getter_failed_fields),
      mkState 1 ["get_lldp_neighbors_detail"]).
Proof.
  split; [|split].
  - apply (@failed_getter_returns_envelope_unchanged nat
             (canned tables_down) 0 1 [] getter_failed_fields
             (PStr "xe-3/0/2") (PStr "") (PStr "") "" eq_refl).
    reflexivity.
  - apply (@failed_getter_returns_envelope_unchanged nat
             (canned tables_down) 0 1 [] getter_failed_fields
             (PStr "") (PStr "") (PInt 10) "" eq_refl).
    reflexivity.
  - apply (@failed_getter_returns_envelope_unchanged nat
             (canned tables_down) 0 1 [] getter_failed_fields
             PNone PNone PNone "xe-0" eq_refl).
    reflexivity.
Defined.

(** The VLAN filter of [mac]: applied for the integer [42], not applied
    for the string ['42'], which is true but not an integer. *)
Example mac_vlan_filter :
  mac (canned tables_up) (PStr "") (PStr "") (PInt 42) (start 0) =
  (Ok (PDict [("out", table [[("mac", PStr "8c:60:4f:58:e1:c1");
                              ("interface", PStr "xe-1/0/1");
                              ("vlan", PInt 42)]]);
              ("result", PBool true); ("comment", PStr "")]),
   mkState 1 ["get_mac_address_table"])
  /\ mac (canned tables_up) (PStr "") (PStr "") (PStr "42") (start 0) =
     (Ok (PDict mac_fields), mkState 1 ["get_mac_address_table"]).
Proof. split; reflexivity. Qed.

(* ------------------------------------------------------------------ *)
(** ** Which proxy methods are called, and in which order               *)
(* ------------------------------------------------------------------ *)

Section Protocol.
Variable World : Type.
Variable napalm_call : string -> dict pyval -> World -> pyval * World.

Lemma emits_ret {A : Type} (a : A) (P : list string -> Prop) :
  P [] -> emits (@ret World A a) P.
Proof. intros HP st. exists []. now rewrite app_nil_r. Qed.

Lemma emits_bind_lift {A B : Type} (r : result A) (f : A -> M World B)
    (P : list string -> Prop) :
  P [] -> (forall a, emits (f a) P) -> emits (bind (lift r) f) P.
Proof.
  intros HP Hf st. unfold bind, lift. destruct r as [a|e]; [apply Hf|].
  exists []. now rewrite app_nil_r.
Qed.

Lemma emits_bind_lift_ok {A B : Type} (a : A) (f : A -> M World B)
    (P : list string -> Prop) :
  emits (f a) P -> emits (bind (lift (Ok a)) f) P.
Proof. intros Hf st. exact (Hf st). Qed.

Lemma emits_bind_raise {A B : Type} (e : exn) (f : A -> M World B)
    (P : list string -> Prop) :
  P [] -> emits (bind (lift (Raise e)) f) P.
Proof. intros HP st. exists []. now rewrite app_nil_r. Qed.

Lemma emits_bind_call {B : Type} (method : string) (kwargs : dict pyval)
    (f : pyval -> M World B) (P : list string -> Prop) :
  (forall e, emits (f e) (fun t => P (method :: t))) ->
  emits (bind (call napalm_call method kwargs) f) P.
Proof.
  intros Hf st. unfold bind, call.
  destruct (napalm_call method kwargs (world st)) as [e w'].
  destruct (Hf e (mkState w' (calls st ++ [method]))) as (t & Ht & HP).
  exists (method :: t). split; [|exact HP].
  rewrite Ht. cbn [calls]. now rewrite <- app_assoc.
Qed.

Lemma emits_if {A : Type} (b : bool) (m1 m2 : M World A)
    (P : list string -> Prop) :
  emits m1 P -> emits m2 P -> emits (if b then m1 else m2) P.
Proof. now destruct b. Qed.

Lemma emits_weaken {A : Type} (m : M World A) (P Q : list string -> Prop) :
  (forall t, P t -> Q t) -> emits m P -> emits m Q.
Proof.
  intros HPQ Hm st. destruct (Hm st) as (t & Ht & HP).
  exists t. split; [exact Ht | now apply HPQ].
Qed.

Lemma emits_ext {A : Type} (m m' : M World A) (P : list string -> Prop) :
  (forall st, m st = m' st) -> emits m' P -> emits m P.
Proof. intros E Hm st. rewrite E. apply Hm. Qed.

Lemma emits_bind_seq {A B : Type} (m : M World A) (f : A -> M World B)
    (t1 : list string) (P : list string -> Prop) :
  emits m (fun t => t = t1) ->
  P t1 ->
  (forall a, emits (f a) (fun t2 => P (t1 ++ t2))) ->
  emits (bind m f) P.
Proof.
  intros Hm HP Hf st. unfold bind.
  destruct (Hm st) as (t & Ht & ->).
  destruct (m st) as [[a|e] st1]; cbn [snd] in Ht.
  - destruct (Hf a st1) as (t2 & Ht2 & HP2).
    exists (t1 ++ t2). split; [|exact HP2].
    now rewrite Ht2, Ht, app_assoc.
  - exists t1. now split.
Qed.

Ltac member := cbv beta; simpl; auto 10.

Ltac protocol :=
  repeat first
    [ apply emits_if
    | apply emits_bind_call; intros ?
    | apply emits_bind_lift; [member | intros ?]
    | apply emits_ret; member ].

Lemma config_logic_emits (loaded_result : pyval) (test commit_config : bool) :
  emits (_config_logic napalm_call loaded_result test commit_config)
    (fun t => In t config_logic_traces).
Proof.
  unfold _config_logic, compare_config, discard_config, commit,
    config_logic_traces.
  protocol.
Qed.

Lemma config_logic_emits_uncommitted (loaded_result : pyval)
    (test commit_config : bool) :
  test = true \/ commit_config = false ->
  emits (_config_logic napalm_call loaded_result test commit_config)
    (fun t => In t uncommitted_traces).
Proof.
  intros [-> | ->];
    unfold _config_logic, compare_config, discard_config, commit,
      uncommitted_traces;
    rewrite ?andb_false_r; cbn [negb andb]; protocol.
Qed.

(** X1. Whatever it is given and whatever the device answers,
    [_config_logic] calls [compare_config] first, then at most one
    [commit_config], then at most one [discard_config], and nothing
    else: no rollback, no second comparison. When it raises it has made
    a prefix of such a sequence. *)
Theorem config_logic_call_protocol (loaded_result : pyval)
    (test commit_config : bool) (st : state World) :
  exists t,
    calls (snd (_config_logic napalm_call loaded_result test commit_config st))
    = calls st ++ t
    /\ In t config_logic_traces.
Proof. apply config_logic_emits. Qed.

(** X2. In test mode, or when the caller did not ask for a commit,
    [_config_logic] never calls [commit_config], whatever the staging
    result and the answers of the device. *)
Theorem config_logic_commits_only_when_asked (loaded_result : pyval)
    (test commit_config : bool) (st : state World)
    (Hflags : test = true \/ commit_config = false) :
  exists t,
    calls (snd (_config_logic napalm_call loaded_result test commit_config st))
    = calls st ++ t
    /\ In t uncommitted_traces
    /\ ~ In "commit_config" t.
Proof.
  destruct (config_logic_emits_uncommitted loaded_result Hflags st)
    as (t & Ht & Hin).
  exists t. split; [exact Ht | split; [exact Hin|]].
  unfold uncommitted_traces in Hin. simpl in Hin.
  intuition (subst; simpl in *; intuition discriminate).
Qed.

Lemma uncommitted_no_commit (t : list string) :
  In t uncommitted_traces -> ~ In "commit_config" t.
Proof.
  unfold uncommitted_traces. simpl.
  intuition (subst; simpl in *; intuition discriminate).
Qed.

Lemma config_logic_emits_staging_failed (loaded : dict pyval)
    (test commit_config : bool) :
  truthy (field loaded "result") = false ->
  emits (_config_logic napalm_call (PDict loaded) test commit_config)
    (fun t => In t uncommitted_traces).
Proof.
  intros Hfailed.
  unfold _config_logic, compare_config, discard_config, commit,
    uncommitted_traces.
  cbn [py_setitem]. apply emits_bind_lift_ok.
  apply emits_bind_call. intros e.
  destruct e as [| | | | |c];
    try (cbn [py_get]; apply emits_bind_raise; member).
  eapply emits_ext; [intros st0; apply compare_step|].
  rewrite py_get_or. apply emits_bind_lift_ok.
  rewrite truthy_get_or_false, field_after_compare_result, Hfailed.
  cbn [negb orb]. protocol.
Qed.

(** X3. When the staging step failed, [_config_logic] never calls
    [commit_config], whatever [test] and [commit_config] are and
    whatever the device answers. *)
Theorem failed_staging_is_never_committed (loaded : dict pyval)
    (test commit_config : bool) (st : state World)
    (Hfailed : truthy (field loaded "result") = false) :
  exists t,
    calls (snd (_config_logic napalm_call (PDict loaded) test commit_config
                  st))
    = calls st ++ t
    /\ In t uncommitted_traces
    /\ ~ In "commit_config" t.
Proof.
  destruct (@config_logic_emits_staging_failed loaded test commit_config
              Hfailed st)
    as (t & Ht & Hin).
  exists t. split; [exact Ht | split; [exact Hin|]].
  now apply uncommitted_no_commit.
Qed.

Lemma config_changed_emits :
  emits (config_changed napalm_call) (fun t => t = ["compare_config"]).
Proof. unfold config_changed, compare_config. protocol. Qed.

Lemma config_control_emits (py_str : pyval -> string) :
  emits (config_control napalm_call py_str)
    (fun t => In t config_control_traces).
Proof.
  unfold config_control, config_control_traces.
  apply emits_bind_seq with (t1 := ["compare_config"]);
    [apply config_changed_emits | member |].
  intros [changed reason]. cbn [app]. unfold commit, rollback. protocol.
Qed.

(** X4. [config_control] calls [compare_config], then possibly
    [commit_config], then possibly [rollback], whatever the device
    answers: it never calls [discard_config], and it rolls back only
    right after a commit. *)
Theorem config_control_call_protocol (py_str : pyval -> string)
    (st : state World) :
  exists t,
    calls (snd (config_control napalm_call py_str st)) = calls st ++ t
    /\ In t config_control_traces
    /\ ~ In "discard_config" t.
Proof.
  destruct (config_control_emits py_str st) as (t & Ht & Hin).
  exists t. split; [exact Ht | split; [exact Hin|]].
  unfold config_control_traces in Hin. simpl in Hin.
  intuition (subst; simpl in *; intuition discriminate).
Qed.

(** X5. [arp], [mac] and [lldp] call the proxy exactly once, for their own
    table, whatever the arguments and the answer, also when the
    filtering raises. *)
Theorem getters_call_the_proxy_once (a b c : pyval) (interface : string)
    (st : state World) :
  calls (snd (arp napalm_call a b c st)) = calls st ++ ["get_arp_table"]
  /\ calls (snd (mac napalm_call a b c st)) =
     calls st ++ ["get_mac_address_table"]
  /\ calls (snd (lldp napalm_call interface st)) =
     calls st ++ ["get_lldp_neighbors_detail"].
Proof.
  assert (forall A (m : M World A) (l : list string),
             emits m (fun t => t = l) ->
             calls (snd (m st)) = calls st ++ l) as Hone.
  { intros A m l Hm. destruct (Hm st) as (t & Ht & ->). exact Ht. }
  repeat split; apply Hone.
  - unfold arp. protocol.
  - unfold mac. protocol.
  - unfold lldp. protocol.
Qed.

(** X6. [load_config] and [load_template] stage the candidate with one call
    and then follow the protocol of [_config_logic]; in test mode, or
    when no commit was asked for, they never call [commit_config]. *)
Theorem loaders_stage_then_follow_protocol
    (pillar grains opts : pyval) (filename text : pyval)
    (name source path : pyval) (vars : dict pyval)
    (test commit : bool) (st : state World) :
  (exists t,
      calls (snd (load_config napalm_call filename text test commit st)) =
      calls st ++ "load_merge_candidate" :: t
      /\ In t config_logic_traces
      /\ (test = true \/ commit = false -> ~ In "commit_config" t))
  /\ (exists t,
        calls (snd (load_template napalm_call pillar grains opts
                      name source path test commit vars st)) =
        calls st ++ "load_template" :: t
        /\ In t config_logic_traces
        /\ (test = true \/ commit = false -> ~ In "commit_config" t)).
Proof.
  assert (forall method kwargs,
             emits (bind (call napalm_call method kwargs)
                      (fun _loaded =>
                         _config_logic napalm_call _loaded test commit))
               (fun t => exists t', t = method :: t'
                  /\ In t' config_logic_traces
                  /\ (test = true \/ commit = false ->
                      ~ In "commit_config" t'))) as Hload.
  { intros method kwargs. apply emits_bind_call. intros e.
    intros st0.
    destruct (config_logic_emits e test commit st0) as (t & Ht & Hin).
    exists t. split; [exact Ht|]. exists t.
    split; [reflexivity | split; [exact Hin|]].
    intros Hflags.
    destruct (config_logic_emits_uncommitted e Hflags st0)
      as (t' & Ht' & Hin').
    rewrite Ht in Ht'. apply app_inv_head in Ht'. subst t'.
    now apply uncommitted_no_commit. }
  split.
  - destruct (Hload "load_merge_candidate"
                [("filename", filename); ("config", text)] st)
      as (t & Ht & t' & -> & Hin & Hno).
    exists t'. now split.
  - destruct (Hload "load_template"
                (load_templates_params pillar grains opts name source path
                   vars) st)
      as (t & Ht & t' & -> & Hin & Hno).
    exists t'. now split.
Qed.

End Protocol.

(* ------------------------------------------------------------------ *)
(** ** What [_config_logic] returns, branch by branch                   *)
(* ------------------------------------------------------------------ *)

Lemma dict_get_pop_eq {V : Type} (k : string) (d : dict V) :
  dict_get k (dict_pop k d) = None.
Proof.
  induction d as [|[k' v] d IH]; simpl; [reflexivity|].
  destruct (String.eqb k k') eqn:E; [exact IH|]. simpl. now rewrite E.
Qed.

Lemma after_compare_out (loaded c : dict pyval) :
  dict_get "out" (after_compare loaded c) =
  if truthy (field c "result") then None else dict_get "out" loaded.
Proof.
  unfold after_compare. destruct (truthy _).
  - apply dict_get_pop_eq.
  - now dict_simpl.
Qed.

Lemma after_compare_diff_entry (loaded c : dict pyval) :
  dict_get "diff" (after_compare loaded c) =
  if truthy (field c "result")
  then Some (field c "out") else dict_get "diff" loaded.
Proof. unfold after_compare. destruct (truthy _); now dict_simpl. Qed.

Lemma py_getitem_none (d : dict pyval) (k : string) :
  dict_get k d = None -> py_getitem (PDict d) k = Raise KeyError.
Proof. intros H. unfold py_getitem. now rewrite H. Qed.

Section Outcomes.
Variable World : Type.
Variable napalm_call : string -> dict pyval -> World -> pyval * World.

Ltac lookup :=
  dict_simpl;
  rewrite ?after_compare_comment, ?after_compare_result,
    ?after_compare_already, ?after_compare_out, ?after_compare_diff_entry;
  first [eassumption | reflexivity].

Ltac step :=
  first
    [ rewrite bind_lift_ok
    | rewrite py_get_or
    | rewrite truthy_get_or_false
    | rewrite field_after_compare_result
    | rewrite get_or_set_neq by reflexivity
    | rewrite after_compare_diff
    | erewrite py_getitem_some by lookup
    | erewrite item_or_str by lookup
    | erewrite py_iadd_item_str by lookup
    | progress cbn [py_setitem negb orb andb Nat.ltb Nat.leb] ].

Ltac start Hcompare :=
  unfold _config_logic, compare_config, discard_config, commit;
  cbn [py_setitem]; rewrite bind_lift_ok;
  rewrite (@bind_call _ _ _ _ _ _ _ _ _ _ Hcompare);
  rewrite compare_step;
  repeat step.

(** X7. Staging succeeded, no test mode, no commit asked for: after
    [compare_config] nothing more is called, so the candidate stays
    staged for the caller. The staging result comes back with
    [already_configured = False], its comment and result untouched, and
    the diff: after a successful comparison ['diff'] is its output and
    ['out'] is gone, after a failed one both entries are as staged. *)
Theorem uncommitted_candidate_stays_staged
    (w w1 : World) (log : list string) (loaded c : dict pyval)
    (Hstaged : truthy (field loaded "result") = true)
    (Hcompare : napalm_call "compare_config" [] w = (PDict c, w1)) :
  exists final,
    _config_logic napalm_call (PDict loaded) false false (mkState w log) =
    (Ok (PDict final), mkState w1 (log ++ ["compare_config"]))
    /\ dict_get "already_configured" final = Some (PBool false)
    /\ dict_get "comment" final = dict_get "comment" loaded
    /\ dict_get "result" final = dict_get "result" loaded
    /\ dict_get "diff" final =
       (if truthy (field c "result")
        then Some (field c "out") else dict_get "diff" loaded)
    /\ dict_get "out" final =
       (if truthy (field c "result") then None else dict_get "out" loaded).
Proof.
  exists (after_compare loaded c). split.
  - now apply no_commit_branch.
  - repeat split; lookup.
Qed.

(** X8. A commit that succeeds: [_config_logic] calls [compare_config] and
    [commit_config] and nothing else, and returns the staging result
    with [already_configured = False], the diff, and its comment and
    result as they were; the comment need not even exist. *)
Theorem committed_change_is_reported
    (w w1 w2 : World) (log : list string) (loaded c m : dict pyval)
    (n : nat)
    (Hstaged : truthy (field loaded "result") = true)
    (Hcompare : napalm_call "compare_config" [] w = (PDict c, w1))
    (Hdiff : py_len (accumulated_diff loaded c) = Ok n)
    (Hnonempty : 0 < n)
    (Hcommit : napalm_call "commit_config" [] w1 = (PDict m, w2))
    (Hcommitted : truthy (field m "result") = true) :
  exists final,
    _config_logic napalm_call (PDict loaded) false true (mkState w log) =
    (Ok (PDict final),
     mkState w2 (log ++ ["compare_config"; "commit_config"]))
    /\ dict_get "already_configured" final = Some (PBool false)
    /\ dict_get "comment" final = dict_get "comment" loaded
    /\ dict_get "result" final = dict_get "result" loaded
    /\ get_or final "diff" (PStr "") = accumulated_diff loaded c.
Proof.
  exists (after_compare loaded c). split.
  - eapply commit_ok_branch; eassumption.
  - split; [lookup|]. split; [lookup|]. split; [lookup|].
    apply after_compare_diff.
Qed.

(** X9. Nothing to commit and a session that cannot be released: with
    staging succeeded, outside test mode, commit asked for and an empty
    diff, a failed discard gives [result = False], leaves
    [already_configured] false and appends the comment of the discard,
    or ['Unable to discard config.'] when it has none, to the comment. *)
Theorem empty_diff_failed_discard_is_reported
    (w w1 w2 : World) (log : list string) (loaded c x : dict pyval)
    (msg xmsg : string)
    (Hstaged : truthy (field loaded "result") = true)
    (Hmsg : dict_get "comment" loaded = Some (PStr msg))
    (Hcompare : napalm_call "compare_config" [] w = (PDict c, w1))
    (Hempty : py_len (accumulated_diff loaded c) = Ok 0)
    (Hdiscard : napalm_call "discard_config" [] w1 = (PDict x, w2))
    (Hfailed : truthy (field x "result") = false)
    (Hxmsg : dict_get "comment" x = Some (PStr xmsg)) :
  exists final,
    _config_logic napalm_call (PDict loaded) false true (mkState w log) =
    (Ok (PDict final),
     mkState w2 (log ++ ["compare_config"; "discard_config"]))
    /\ dict_get "already_configured" final = Some (PBool false)
    /\ dict_get "comment" final =
       Some (PStr (msg ++ or_default xmsg "Unable to discard config."))
    /\ dict_get "result" final = Some (PBool false).
Proof. eapply empty_diff_discard_failed_branch; eassumption. Qed.

(** X10. Test mode, or a staging step that failed, with a discard that
    fails: [result] becomes [False] even if staging had succeeded, the
    comment of the discard (or ['Unable to discard config.']) follows
    the staging message, and [already_configured] is true exactly when
    the diff is empty, since it is set before the discard is tried. *)
Theorem failed_discard_in_discard_branch
    (w w1 w2 : World) (log : list string) (loaded c x : dict pyval)
    (msg xmsg : string) (test commit_config : bool) (n : nat)
    (Hbranch : negb (truthy (field loaded "result")) || test = true)
    (Hmsg : dict_get "comment" loaded = Some (PStr msg))
    (Hcompare : napalm_call "compare_config" [] w = (PDict c, w1))
    (Hdiff : py_len (accumulated_diff loaded c) = Ok n)
    (Hdiscard : napalm_call "discard_config" [] w1 = (PDict x, w2))
    (Hfailed : truthy (field x "result") = false)
    (Hxmsg : dict_get "comment" x = Some (PStr xmsg)) :
  exists final,
    _config_logic napalm_call (PDict loaded) test commit_config
      (mkState w log) =
    (Ok (PDict final),
     mkState w2 (log ++ ["compare_config"; "discard_config"]))
    /\ dict_get "result" final = Some (PBool false)
    /\ dict_get "comment" final =
       Some (PStr (with_newline msg ++
                   or_default xmsg "Unable to discard config."))
    /\ dict_get "already_configured" final = Some (PBool (Nat.eqb n 0)).
Proof.
  destruct (@discard_branch World napalm_call w w1 w2 log loaded c x msg xmsg
              test commit_config n)
    as (final & Hrun & Hcomment & Halready & Hresult);
    [assumption .. | now intros _ |].
  rewrite Hfailed in Hcomment, Hresult.
  exists final. repeat split; assumption.
Qed.

(** X11. Test mode, or a staging step that failed, with an empty diff and a
    discard that succeeds: [already_configured] is [True] and the
    comment ends in ['Configuration discarded.']; it is not replaced by
    ['Already configured.'] as in the commit branch. *)
Theorem empty_diff_in_discard_branch
    (w w1 w2 : World) (log : list string) (loaded c x : dict pyval)
    (msg : string) (test commit_config : bool)
    (Hbranch : negb (truthy (field loaded "result")) || test = true)
    (Hmsg : dict_get "comment" loaded = Some (PStr msg))
    (Hcompare : napalm_call "compare_config" [] w = (PDict c, w1))
    (Hempty : py_len (accumulated_diff loaded c) = Ok 0)
    (Hdiscard : napalm_call "discard_config" [] w1 = (PDict x, w2))
    (Hdiscarded : truthy (field x "result") = true) :
  exists final,
    _config_logic napalm_call (PDict loaded) test commit_config
      (mkState w log) =
    (Ok (PDict final),
     mkState w2 (log ++ ["compare_config"; "discard_config"]))
    /\ dict_get "already_configured" final = Some (PBool true)
    /\ dict_get "comment" final =
       Some (PStr (with_newline msg ++ "Configuration discarded."))
    /\ dict_get "result" final = dict_get "result" loaded.
Proof.
  destruct (@discard_branch World napalm_call w w1 w2 log loaded c x msg ""
              test commit_config 0)
    as (final & Hrun & Hcomment & Halready & Hresult);
    [assumption .. | |].
  { rewrite Hdiscarded. discriminate. }
  rewrite Hdiscarded in Hcomment, Hresult.
  exists final. repeat split; assumption.
Qed.

(** X12. A commit that fails: the comment returned is the staging message,
    the reason of the commit failure (or ['Unable to commit config.']),
    a line feed, and the comment of the discard (or
    ['Unable to discard config.']); [result] is [False]. The [result]
    of the discard plays no part. *)
Theorem failed_commit_message
    (w w1 w2 w3 : World) (log : list string) (loaded c m x : dict pyval)
    (msg mmsg xmsg : string) (n : nat)
    (Hstaged : truthy (field loaded "result") = true)
    (Hmsg : dict_get "comment" loaded = Some (PStr msg))
    (Hcompare : napalm_call "compare_config" [] w = (PDict c, w1))
    (Hdiff : py_len (accumulated_diff loaded c) = Ok n)
    (Hnonempty : 0 < n)
    (Hcommit : napalm_call "commit_config" [] w1 = (PDict m, w2))
    (Hfailed : truthy (field m "result") = false)
    (Hmmsg : dict_get "comment" m = Some (PStr mmsg))
    (Hdiscard : napalm_call "discard_config" [] w2 = (PDict x, w3))
    (Hxmsg : dict_get "comment" x = Some (PStr xmsg)) :
  exists final,
    _config_logic napalm_call (PDict loaded) false true (mkState w log) =
    (Ok (PDict final),
     mkState w3
       (log ++ ["compare_config"; "commit_config"; "discard_config"]))
    /\ dict_get "comment" final =
       Some (PStr (msg ++ or_default mmsg "Unable to commit config." ++
                   nl ++ or_default xmsg "Unable to discard config."))
    /\ dict_get "result" final = Some (PBool false)
    /\ dict_get "already_configured" final = Some (PBool false).
Proof. eapply commit_failed_branch; eassumption. Qed.

(** X13. A staging result without a ['comment'] entry, in test mode or after
    a failed staging: [_config_logic] raises [KeyError] right after
    [compare_config], before any [discard_config], so the candidate is
    left staged on the device. *)
Theorem missing_comment_raises_before_discard
    (w w1 : World) (log : list string) (loaded c : dict pyval)
    (test commit_config : bool)
    (Hbranch : negb (truthy (field loaded "result")) || test = true)
    (Hmissing : dict_get "comment" loaded = None)
    (Hcompare : napalm_call "compare_config" [] w = (PDict c, w1)) :
  _config_logic napalm_call (PDict loaded) test commit_config (mkState w log)
  = (Raise KeyError, mkState w1 (log ++ ["compare_config"])).
Proof.
  start Hcompare. rewrite Hbranch.
  rewrite py_getitem_none by (now rewrite after_compare_comment).
  reflexivity.
Qed.

(** X14. A diff that has no length (a comparison that succeeded without
    output, so that the diff is [None]): whenever [_config_logic] has to
    measure the diff, that is unless staging succeeded with neither test
    mode nor commit, it raises [TypeError] right after [compare_config],
    before any commit or discard. *)
Theorem unmeasurable_diff_raises
    (w w1 : World) (log : list string) (loaded c : dict pyval)
    (msg : string) (test commit_config : bool)
    (Hmsg : dict_get "comment" loaded = Some (PStr msg))
    (Hneeded : negb (truthy (field loaded "result")) || test || commit_config
               = true)
    (Hcompare : napalm_call "compare_config" [] w = (PDict c, w1))
    (Hdiff : py_len (accumulated_diff loaded c) = Raise TypeError) :
  _config_logic napalm_call (PDict loaded) test commit_config (mkState w log)
  = (Raise TypeError, mkState w1 (log ++ ["compare_config"])).
Proof.
  start Hcompare.
  destruct (negb (truthy (field loaded "result")) || test) eqn:Hbranch.
  - repeat step. destruct (truthy (PStr msg)); repeat step; rewrite Hdiff;
      reflexivity.
  - apply orb_false_iff in Hbranch. destruct Hbranch as [_ ->].
    cbn [orb] in Hneeded. rewrite Hneeded. repeat step.
    rewrite Hdiff. reflexivity.
Qed.

Lemma returns_ret {A : Type} (a : A) (Q : A -> Prop) :
  Q a -> returns (@ret World A a) Q.
Proof. intros HQ st b st' H. inversion H. now subst. Qed.

Lemma returns_bind_lift {A B : Type} (r : result A) (f : A -> M World B)
    (Q : B -> Prop) :
  (forall a, r = Ok a -> returns (f a) Q) -> returns (bind (lift r) f) Q.
Proof.
  intros Hf st b st' H. unfold bind, lift in H.
  destruct r as [a|e]; [|discriminate]. exact (Hf a eq_refl st b st' H).
Qed.

Lemma returns_bind_call {B : Type} (method : string) (kwargs : dict pyval)
    (f : pyval -> M World B) (Q : B -> Prop) :
  (forall e, returns (f e) Q) ->
  returns (bind (call napalm_call method kwargs) f) Q.
Proof.
  intros Hf st b st' H. unfold bind, call in H.
  destruct (napalm_call method kwargs (world st)) as [e w'].
  exact (Hf e _ b st' H).
Qed.

Lemma returns_if {A : Type} (b : bool) (m1 m2 : M World A) (Q : A -> Prop) :
  returns m1 Q -> returns m2 Q -> returns (if b then m1 else m2) Q.
Proof. now destruct b. Qed.

Lemma keeps_setitem (out diff : option pyval) (x a v : pyval) (k : string) :
  py_setitem x k v = Ok a ->
  keeps_out_diff out diff x ->
  String.eqb "out" k = false -> String.eqb "diff" k = false ->
  keeps_out_diff out diff a.
Proof.
  intros H (d & -> & Ho & Hd) Nout Ndiff. cbn in H. inversion H; subst.
  exists (dict_set k v d). now rewrite !dict_get_set_neq.
Qed.

Lemma keeps_iadd_item (out diff : option pyval) (x a : pyval)
    (rhs : result pyval) (k : string) :
  py_iadd_item x k rhs = Ok a ->
  keeps_out_diff out diff x ->
  String.eqb "out" k = false -> String.eqb "diff" k = false ->
  keeps_out_diff out diff a.
Proof.
  intros H Hx Nout Ndiff. unfold py_iadd_item in H.
  destruct (py_getitem x k) as [cur|]; [|discriminate]. cbn [rbind] in H.
  destruct rhs as [v|]; [|discriminate]. cbn [rbind] in H.
  destruct (py_iadd cur v) as [s|]; [|discriminate]. cbn [rbind] in H.
  eapply keeps_setitem; eassumption.
Qed.

Ltac derive Ha :=
  lazymatch type of Ha with
  | py_setitem _ _ _ = Ok _ =>
      pose proof
        (@keeps_setitem _ _ _ _ _ _ Ha ltac:(eassumption) eq_refl eq_refl)
  | py_iadd_item _ _ _ = Ok _ =>
      pose proof
        (@keeps_iadd_item _ _ _ _ _ _ Ha ltac:(eassumption) eq_refl eq_refl)
  | (if ?b then _ else Ok _) = Ok _ =>
      destruct b; [derive Ha | inversion Ha; subst]
  | _ => idtac
  end.

Ltac invariant :=
  repeat first
    [ apply returns_if
    | apply returns_bind_call; intros ?
    | apply returns_bind_lift;
      let a := fresh "a" in let Ha := fresh "Ha" in
      intros a Ha; derive Ha
    | apply returns_ret; assumption ].

(** X15. Whatever branch is taken, the value [_config_logic] returns carries
    what the comparison decided: after a successful [compare_config]
    its output is under ['diff'] and the ['out'] entry of the staging
    result is gone; after a failed one both entries are as the staging
    result had them. *)
Theorem compare_decides_out_and_diff
    (w w1 : World) (log : list string) (loaded c : dict pyval)
    (test commit_config : bool) (final : pyval) (st' : state World)
    (Hcompare : napalm_call "compare_config" [] w = (PDict c, w1))
    (Hrun : _config_logic napalm_call (PDict loaded) test commit_config
              (mkState w log) = (Ok final, st')) :
  (truthy (field c "result") = true ->
   keeps_out_diff None (Some (field c "out")) final)
  /\ (truthy (field c "result") = false ->
      keeps_out_diff (dict_get "out" loaded) (dict_get "diff" loaded) final).
Proof.
  assert (keeps_out_diff (dict_get "out" (after_compare loaded c))
            (dict_get "diff" (after_compare loaded c)) final) as Hkeeps.
  { revert Hrun.
    unfold _config_logic, compare_config, discard_config, commit.
    cbn [py_setitem]. rewrite bind_lift_ok.
    rewrite (@bind_call _ _ _ _ _ _ _ _ _ _ Hcompare).
    rewrite compare_step.
    assert (keeps_out_diff (dict_get "out" (after_compare loaded c))
              (dict_get "diff" (after_compare loaded c))
              (PDict (after_compare loaded c))) as Hstart
        by (eexists; repeat split).
    generalize (mkState w1 (log ++ ["compare_config"])). intros st Hrun.
    revert st final st' Hrun.
    match goal with
    | |- forall st final st', ?m st = (Ok final, st') -> ?Q final =>
        change (returns m (fun final => Q final))
    end.
    invariant. }
  rewrite after_compare_out, after_compare_diff_entry in Hkeeps.
  split; intros Hc; now rewrite Hc in Hkeeps.
Qed.

End Outcomes.

(* ------------------------------------------------------------------ *)
(** ** The filters on arbitrary input                                   *)
(* ------------------------------------------------------------------ *)

Lemma _filter_list_loop_any (items : list pyval) (k : string) (v : pyval)
    (acc : list pyval) :
  _filter_list_loop items k v acc =
  if forallb is_dict items
  then Ok (acc ++ filter (selected k v) items)
  else Raise AttributeError.
Proof.
  revert acc. induction items as [|x items IH]; intros acc.
  - simpl. now rewrite app_nil_r.
  - cbn [_filter_list_loop forallb filter].
    destruct x as [| | | | |d]; try reflexivity.
    unfold selected. cbn [py_get is_dict andb].
    destruct (dict_get k d) as [f|]; cbn [rbind]; rewrite IH;
      destruct (forallb is_dict items); try reflexivity;
      match goal with |- context [if ?b then _ else _] => destruct b end;
      now rewrite <- ?app_assoc.
Qed.

Lemma forallb_filter {A : Type} (p f : A -> bool) (l : list A) :
  forallb p l = true -> forallb p (filter f l) = true.
Proof.
  induction l as [|x l IH]; [reflexivity|]. cbn [forallb filter].
  intros H. apply andb_true_iff in H. destruct H as [Hx Hl].
  destruct (f x); cbn [forallb]; rewrite ?Hx; auto.
Qed.

Lemma filter_filter {A : Type} (f g : A -> bool) (l : list A) :
  filter f (filter g l) = filter (fun x => g x && f x) l.
Proof.
  induction l as [|x l IH]; [reflexivity|]. cbn [filter].
  destruct (g x); cbn [filter andb]; [destruct (f x)|]; now rewrite IH.
Qed.

Lemma filter_ext_eq {A : Type} (f g : A -> bool) (l : list A) :
  (forall x, f x = g x) -> filter f l = filter g l.
Proof.
  intros E. induction l as [|x l IH]; [reflexivity|].
  cbn [filter]. now rewrite E, IH.
Qed.

(** X16. On a list, [_filter_list] either returns the elements that are
    dictionaries with the field equal to the value, in order, or raises
    [AttributeError]: it raises as soon as one element, anywhere in the
    list, is not a dictionary, even when no element matches. On [None],
    a number or a boolean it raises [TypeError]. *)
Theorem filter_list_on_any_list (l : list pyval) (k : string) (v : pyval)
    (b : bool) (n : Z) :
  _filter_list (PList l) k v =
  (if forallb is_dict l
   then Ok (PList (filter (selected k v) l))
   else Raise AttributeError)
  /\ _filter_list PNone k v = Raise TypeError
  /\ _filter_list (PBool b) k v = Raise TypeError
  /\ _filter_list (PInt n) k v = Raise TypeError.
Proof.
  split; [|now repeat split].
  unfold _filter_list. cbn [py_iter rbind].
  rewrite _filter_list_loop_any. now destruct (forallb is_dict l).
Qed.

(** X17. Filtering what [_filter_list] returned, with the same key and
    value, changes nothing: whenever the first call returns, the second
    returns the same list. *)
Theorem filter_list_idempotent (input out : pyval) (k : string) (v : pyval)
    (Hfirst : _filter_list input k v = Ok out) :
  _filter_list out k v = Ok out.
Proof.
  unfold _filter_list in Hfirst.
  destruct (py_iter input) as [items|e]; [|discriminate].
  cbn [rbind] in Hfirst. rewrite _filter_list_loop_any in Hfirst.
  destruct (forallb is_dict items) eqn:Hdicts; [|discriminate].
  cbn [rbind app] in Hfirst. inversion Hfirst; subst out.
  unfold _filter_list. cbn [py_iter rbind].
  rewrite _filter_list_loop_any, (@forallb_filter _ _ _ _ Hdicts).
  cbn [rbind app]. rewrite filter_filter.
  do 2 f_equal. apply filter_ext_eq. intros y. apply andb_diag.
Qed.

(** X18. Two filters can be applied in either order: on any input, filtering
    by one key and then by another returns, or raises, the same as
    filtering the other way round. *)
Theorem filter_list_commutes (input : pyval) (k1 k2 : string)
    (v1 v2 : pyval) :
  (once <- _filter_list input k1 v1 ;; _filter_list once k2 v2)%result =
  (once <- _filter_list input k2 v2 ;; _filter_list once k1 v1)%result.
Proof.
  unfold _filter_list at 1 3.
  destruct (py_iter input) as [items|e]; [|reflexivity].
  cbn [rbind]. rewrite !_filter_list_loop_any.
  destruct (forallb is_dict items) eqn:Hdicts; [|reflexivity].
  cbn [rbind app]. unfold _filter_list. cbn [py_iter rbind].
  rewrite !_filter_list_loop_any, !(@forallb_filter _ _ _ _ Hdicts).
  cbn [rbind app]. rewrite !filter_filter.
  do 2 f_equal. apply filter_ext_eq. intros y. apply andb_comm.
Qed.

Lemma _filter_dict_grouped (gs : list (string * list record)) (k : string)
    (v : pyval) :
  NoDup (map fst gs) ->
  _filter_dict (grouped gs) k v = Ok (grouped (filtered_groups k v gs)).
Proof.
  intros Hkeys. unfold _filter_dict, grouped. cbn [py_iteritems rbind].
  rewrite _filter_dict_loop_groups; [reflexivity | exact Hkeys |].
  intros g _ [].
Qed.

Lemma NoDup_keys_filter {A B : Type} (f : A * B -> bool) (l : list (A * B)) :
  NoDup (map fst l) -> NoDup (map fst (filter f l)).
Proof.
  induction l as [|x l IH]; intros H; [constructor|].
  inversion H as [|? ? Hx Hl]; subst. cbn [filter].
  destruct (f x); [|now apply IH].
  cbn [map]. constructor; [|now apply IH].
  intros Hin. apply Hx. apply in_map_iff in Hin.
  destruct Hin as (y & <- & Hy). apply in_map. now apply filter_In in Hy.
Qed.

Lemma filtered_groups_twice (k : string) (v : pyval)
    (gs : list (string * list record)) :
  filtered_groups k v (filtered_groups k v gs) = filtered_groups k v gs.
Proof.
  induction gs as [|[key rs] gs IH]; [reflexivity|].
  rewrite filtered_groups_cons.
  destruct (filter (matches k v) rs) as [|r rs'] eqn:E; [exact IH|].
  rewrite filtered_groups_cons.
  assert (filter (matches k v) (r :: rs') = r :: rs') as Esame.
  { rewrite <- E, filter_filter. apply filter_ext_eq.
    intros y. apply andb_diag. }
  rewrite Esame. now rewrite IH.
Qed.

(** X19. Filtering what [_filter_dict] returned, with the same key and
    value, changes nothing. *)
Theorem filter_dict_idempotent (gs : list (string * list record))
    (k : string) (v : pyval) (Hkeys : NoDup (map fst gs)) :
  exists out,
    _filter_dict (grouped gs) k v = Ok out
    /\ _filter_dict out k v = Ok out.
Proof.
  exists (grouped (filtered_groups k v gs)).
  split; [now apply _filter_dict_grouped|].
  rewrite _filter_dict_grouped.
  - now rewrite filtered_groups_twice.
  - unfold filtered_groups. rewrite map_map. cbn [fst].
    now apply NoDup_keys_filter.
Qed.

(* ------------------------------------------------------------------ *)
(** ** The table getters, filter by filter                              *)
(* ------------------------------------------------------------------ *)

Lemma filter_if_as_filter (b : bool) (k : string) (v : pyval)
    (rs : list record) :
  filter_if b k v rs = filter (fun r => negb b || matches k v r) rs.
Proof.
  destruct b; cbn [filter_if negb orb]; [reflexivity|].
  symmetry. now apply filter_all.
Qed.

Lemma truthy_field_some (d : dict pyval) (k : string) :
  truthy (field d k) = true ->
  exists v, dict_get k d = Some v /\ truthy v = true.
Proof.
  unfold field. destruct (dict_get k d) as [v|]; [|discriminate].
  intros H. now exists v.
Qed.

Lemma dict_set_same {V : Type} (k : string) (v : V) (d : dict V) :
  dict_get k d = Some v -> dict_set k v d = d.
Proof.
  induction d as [|[k' v'] d IH]; simpl; [discriminate|].
  destruct (String.eqb k k'); intros H.
  - now inversion H.
  - now rewrite IH.
Qed.

Section Tables.
Variable World : Type.
Variable napalm_call : string -> dict pyval -> World -> pyval * World.

(** X20. On a true answer, [arp] returns the envelope with the table reduced
    to the rows that pass every filter that was given, in the order of
    the table; a filter whose argument is false is not applied. *)
Theorem arp_keeps_rows_passing_all_filters
    (w w' : World) (log : list string) (d : dict pyval) (rs : list record)
    (interface ipaddr macaddr : pyval)
    (Hcall : napalm_call "get_arp_table" [] w = (PDict d, w'))
    (Hresult : truthy (field d "result") = true)
    (Hout : dict_get "out" d = Some (table rs)) :
  arp napalm_call interface ipaddr macaddr (mkState w log) =
  (Ok (PDict (dict_set "out"
                (table (filter (arp_selects interface ipaddr macaddr) rs))
                d)),
   mkState w' (log ++ ["get_arp_table"])).
Proof.
  destruct (truthy_field_some _ _ Hresult) as (ok & Hok & Htrue).
  rewrite (@arp_success World napalm_call w w' log d ok rs
             interface ipaddr macaddr Hcall Hok Htrue Hout).
  rewrite !filter_if_as_filter, !filter_filter.
  rewrite (@filter_ext_eq _ _ (arp_selects interface ipaddr macaddr) rs);
    [reflexivity|].
  intros r. unfold arp_selects. now rewrite andb_assoc.
Qed.

(** X21. On a true answer, [mac] returns the envelope with the table reduced
    to the rows that pass every filter that was given; the VLAN filter
    counts as given only for a nonzero integer. *)
Theorem mac_keeps_rows_passing_all_filters
    (w w' : World) (log : list string) (d : dict pyval) (rs : list record)
    (address interface vlan : pyval)
    (Hcall : napalm_call "get_mac_address_table" [] w = (PDict d, w'))
    (Hresult : truthy (field d "result") = true)
    (Hout : dict_get "out" d = Some (table rs)) :
  mac napalm_call address interface vlan (mkState w log) =
  (Ok (PDict (dict_set "out"
                (table (filter (mac_selects address interface vlan) rs))
                d)),
   mkState w' (log ++ ["get_mac_address_table"])).
Proof.
  destruct (truthy_field_some _ _ Hresult) as (ok & Hok & Htrue).
  rewrite (@mac_success World napalm_call w w' log d ok rs
             address interface vlan Hcall Hok Htrue Hout).
  rewrite !filter_if_as_filter, !filter_filter.
  rewrite (@filter_ext_eq _ _ (mac_selects address interface vlan) rs);
    [reflexivity|].
  intros r. unfold mac_selects. now rewrite andb_assoc.
Qed.

Ltac run_call H :=
  unfold bind, call, lift, ret; cbn [world calls]; rewrite H.

(** X22. Called without a filter (every argument false, the interface of
    [lldp] empty), [arp], [mac] and [lldp] return a true answer of the
    driver as it is, whatever its output is. *)
Theorem unfiltered_getters_return_the_answer
    (w w' : World) (log : list string) (d : dict pyval)
    (a b c out : pyval)
    (Hresult : truthy (field d "result") = true)
    (Hout : dict_get "out" d = Some out)
    (Ha : truthy a = false) (Hb : truthy b = false) (Hc : truthy c = false) :
  (napalm_call "get_arp_table" [] w = (PDict d, w') ->
   arp napalm_call a b c (mkState w log) =
   (Ok (PDict d), mkState w' (log ++ ["get_arp_table"])))
  /\ (napalm_call "get_mac_address_table" [] w = (PDict d, w') ->
      mac napalm_call a b c (mkState w log) =
      (Ok (PDict d), mkState w' (log ++ ["get_mac_address_table"])))
  /\ (napalm_call "get_lldp_neighbors_detail" [] w = (PDict d, w') ->
      lldp napalm_call "" (mkState w log) =
      (Ok (PDict d), mkState w' (log ++ ["get_lldp_neighbors_detail"]))).
Proof.
  assert (get_or d "out" PNone = out) as Hget
      by (unfold get_or; now rewrite Hout).
  repeat split; intros Hcall.
  - unfold arp. run_call Hcall. rewrite py_get_field, Hresult.
    cbn [negb]. rewrite py_get_or, Hget, Ha, Hb, Hc.
    cbn [py_update1]. now rewrite dict_set_same by exact Hout.
  - unfold mac. run_call Hcall. rewrite py_get_field, Hresult.
    cbn [negb]. rewrite py_get_or, Hget, Ha, Hb, Hc.
    cbn [andb py_update1]. now rewrite dict_set_same by exact Hout.
  - unfold lldp. run_call Hcall. rewrite py_get_field, Hresult.
    cbn [negb]. rewrite py_get_or, Hget.
    cbn [truthy String.eqb negb py_update1].
    now rewrite dict_set_same by exact Hout.
Qed.

(** X23. A true answer that has no ['out'] entry: with a filter, [arp] and
    [mac] raise [TypeError] (they filter [None]) and [lldp] raises
    [AttributeError] (it looks the interface up in [None]); without a
    filter, [arp] returns the answer with ['out'] set to [None]. *)
Theorem getters_on_answer_without_output
    (w w' : World) (log : list string) (d : dict pyval)
    (a b c : pyval) (interface : string)
    (Hresult : truthy (field d "result") = true)
    (Hout : dict_get "out" d = None) :
  (napalm_call "get_arp_table" [] w = (PDict d, w') ->
   arp napalm_call a b c (mkState w log) =
   (if truthy a || truthy b || truthy c
    then Raise TypeError
    else Ok (PDict (d ++ [("out", PNone)])),
    mkState w' (log ++ ["get_arp_table"])))
  /\ (napalm_call "get_mac_address_table" [] w = (PDict d, w') ->
      truthy a = true ->
      mac napalm_call a b c (mkState w log) =
      (Raise TypeError, mkState w' (log ++ ["get_mac_address_table"])))
  /\ (napalm_call "get_lldp_neighbors_detail" [] w = (PDict d, w') ->
      interface <> "" ->
      lldp napalm_call interface (mkState w log) =
      (Raise AttributeError,
       mkState w' (log ++ ["get_lldp_neighbors_detail"]))).
Proof.
  assert (get_or d "out" PNone = PNone) as Hget
      by (unfold get_or; now rewrite Hout).
  assert (~ In "out" (dict_keys d)) as Hfresh
      by (now apply dict_get_None_keys).
  repeat split; intros Hcall.
  - unfold arp. run_call Hcall. rewrite py_get_field, Hresult.
    cbn [negb]. rewrite py_get_or, Hget.
    destruct (truthy a); [reflexivity|].
    destruct (truthy b); [reflexivity|].
    destruct (truthy c); [reflexivity|].
    cbn [orb py_update1]. now rewrite dict_set_fresh by exact Hfresh.
  - intros Ha. unfold mac. run_call Hcall. rewrite py_get_field, Hresult.
    cbn [negb]. rewrite py_get_or, Hget, Ha.
    destruct (truthy c && isinstance_int c); reflexivity.
  - intros Hname. apply String.eqb_neq in Hname.
    unfold lldp. run_call Hcall. rewrite py_get_field, Hresult.
    cbn [negb]. rewrite py_get_or, Hget. cbn [truthy]. rewrite Hname.
    reflexivity.
Qed.

End Tables.

(* ------------------------------------------------------------------ *)
(** ** Reconciliation and the loaders                                   *)
(* ------------------------------------------------------------------ *)

Section Loaders.
Variable World : Type.
Variable napalm_call : string -> dict pyval -> World -> pyval * World.

(** X24. Unless [config_changed] reports a change, [config_control] does
    nothing of its own: it returns what [config_changed] returns, the
    flag [False] with the reason or the exception raised, in the state
    [config_changed] leaves, so without a commit or a rollback. *)
Theorem config_control_without_drift (py_str : pyval -> string)
    (st : state World)
    (Hnodrift : forall reason,
        fst (config_changed napalm_call st) <> Ok (true, reason)) :
  config_control napalm_call py_str st = config_changed napalm_call st.
Proof.
  unfold config_control, bind.
  destruct (config_changed napalm_call st) as [[[changed reason]|e] st1];
    [|reflexivity].
  destruct changed; [|reflexivity].
  exfalso. now apply (Hnodrift reason).
Qed.

(** X25. Drift and a commit that succeeds: [config_control] returns
    [(True, '')] after [compare_config] and [commit_config]; no rollback
    is tried. *)
Theorem config_control_commits_the_drift (py_str : pyval -> string)
    (w w1 w2 : World) (log : list string) (c m : dict pyval)
    (Hcompare : napalm_call "compare_config" [] w = (PDict c, w1))
    (Hdrift : truthy (field c "result") = true
              /\ truthy (field c "out") = true)
    (Hcommit : napalm_call "commit_config" [] w1 = (PDict m, w2))
    (Hcommitted : truthy (field m "result") = true) :
  config_control napalm_call py_str (mkState w log) =
  (Ok (true, PStr ""),
   mkState w2 (log ++ ["compare_config"; "commit_config"])).
Proof.
  destruct Hdrift as [Hres Hout].
  unfold config_control. unfold bind at 1.
  rewrite (@config_changed_run World napalm_call w w1 log c Hcompare),
    Hres, Hout.
  cbn [negb]. unfold commit.
  rewrite (@bind_call _ _ _ _ _ _ _ _ _ _ Hcommit).
  rewrite py_get_field, bind_lift_ok, Hcommitted. cbn [negb].
  unfold ret. now rewrite <- app_assoc.
Qed.

(** X26. The arguments of [load_template] and the injected dictionaries win
    over template variables of the same name: under each key the
    function sets, the proxy receives the function's value, and under
    every other key the template variable as it was given. *)
Theorem template_vars_cannot_override
    (pillar grains opts name source path : pyval) (vars : dict pyval) :
  let params :=
    load_templates_params pillar grains opts name source path vars in
  dict_get "template_name" params = Some name
  /\ dict_get "template_source" params = Some source
  /\ dict_get "template_path" params = Some path
  /\ dict_get "pillar" params = Some pillar
  /\ dict_get "grains" params = Some grains
  /\ dict_get "opts" params = Some opts
  /\ (forall k, ~ In k reserved_template_keys ->
        dict_get k params = dict_get k vars).
Proof.
  unfold load_templates_params, dict_update. cbn [fold_left fst snd].
  repeat split; try (now dict_simpl).
  intros k Hk. unfold reserved_template_keys in Hk. cbn [In] in Hk.
  rewrite !dict_get_set_neq; [reflexivity | ..];
    apply String.eqb_neq; intros ->; apply Hk; auto 10.
Qed.

(** X27. [load_config] on a change that stages and commits: the proxy is
    called for [load_merge_candidate] with the file name and the text,
    then for [compare_config] and [commit_config], and the answer of the
    staging step comes back with [already_configured = False], the
    diff, and its result and comment untouched. *)
Theorem load_config_commits_a_change
    (w w0 w1 w2 : World) (log : list string) (filename text : pyval)
    (loaded c m : dict pyval) (n : nat)
    (Hload : napalm_call "load_merge_candidate"
               [("filename", filename); ("config", text)] w =
             (PDict loaded, w0))
    (Hstaged : truthy (field loaded "result") = true)
    (Hcompare : napalm_call "compare_config" [] w0 = (PDict c, w1))
    (Hdiff : py_len (accumulated_diff loaded c) = Ok n)
    (Hnonempty : 0 < n)
    (Hcommit : napalm_call "commit_config" [] w1 = (PDict m, w2))
    (Hcommitted : truthy (field m "result") = true) :
  exists final,
    load_config napalm_call filename text false true (mkState w log) =
    (Ok (PDict final),
     mkState w2
       (log ++ ["load_merge_candidate"; "compare_config"; "commit_config"]))
    /\ dict_get "already_configured" final = Some (PBool false)
    /\ dict_get "result" final = dict_get "result" loaded
    /\ dict_get "comment" final = dict_get "comment" loaded
    /\ get_or final "diff" (PStr "") = accumulated_diff loaded c.
Proof.
  exists (after_compare loaded c). split.
  - unfold load_config. rewrite (@bind_call _ _ _ _ _ _ _ _ _ _ Hload).
    rewrite (@commit_ok_branch World napalm_call w0 w1 w2
               (log ++ ["load_merge_candidate"]) loaded c m n);
      try assumption.
    now rewrite <- app_assoc.
  - split; [apply after_compare_already|].
    split; [apply after_compare_result|].
    split; [apply after_compare_comment | apply after_compare_diff].
Qed.

(** X28. A dry run of [load_template]: the template is rendered and staged
    with the parameters above, compared and discarded, never committed;
    the answer of the staging step comes back with its result, the
    comment ending in ['Configuration discarded.'], and
    [already_configured] telling whether the diff was empty. *)
Theorem load_template_dry_run
    (pillar grains opts name source path : pyval) (vars : dict pyval)
    (w w0 w1 w2 : World) (log : list string) (commit : bool)
    (loaded c x : dict pyval) (msg : string) (n : nat)
    (Hload : napalm_call "load_template"
               (load_templates_params pillar grains opts name source path
                  vars) w =
             (PDict loaded, w0))
    (Hmsg : dict_get "comment" loaded = Some (PStr msg))
    (Hcompare : napalm_call "compare_config" [] w0 = (PDict c, w1))
    (Hdiff : py_len (accumulated_diff loaded c) = Ok n)
    (Hdiscard : napalm_call "discard_config" [] w1 = (PDict x, w2))
    (Hdiscarded : truthy (field x "result") = true) :
  exists final,
    load_template napalm_call pillar grains opts name source path
      true commit vars (mkState w log) =
    (Ok (PDict final),
     mkState w2
       (log ++ ["load_template"; "compare_config"; "discard_config"]))
    /\ dict_get "result" final = dict_get "result" loaded
    /\ dict_get "comment" final =
       Some (PStr (with_newline msg ++ "Configuration discarded."))
    /\ dict_get "already_configured" final = Some (PBool (Nat.eqb n 0)).
Proof.
  destruct (@discard_branch World napalm_call w0 w1 w2
              (log ++ ["load_template"]) loaded c x msg "" true commit n)
    as (final & Hrun & Hcomment & Halready & Hresult);
    [apply orb_true_r | assumption .. | |].
  { rewrite Hdiscarded. discriminate. }
  rewrite Hdiscarded in Hcomment, Hresult.
  exists final. split; [|now repeat split].
  unfold load_template. rewrite (@bind_call _ _ _ _ _ _ _ _ _ _ Hload).
  rewrite Hrun. now rewrite <- app_assoc.
Qed.

End Loaders.

(* ------------------------------------------------------------------ *)
(** ** The properties above on concrete devices                         *)
(* ------------------------------------------------------------------ *)

Lemma config_logic_commits_only_when_asked_witness :
  exists t,
    calls (snd (_config_logic (canned healthy) (PDict staged_ok) true true
                  (start 0))) = calls (start 0) ++ t
    /\ In t uncommitted_traces
    /\ ~ In "commit_config" t.
Proof.
  exact (@config_logic_commits_only_when_asked nat (canned healthy)
           (PDict staged_ok) true true (start 0) (or_introl eq_refl)).
Defined.

Lemma failed_staging_is_never_committed_witness :
  exists t,
    calls (snd (_config_logic (canned healthy) (PDict staged_failed)
                  false true (start 0))) = calls (start 0) ++ t
    /\ In t uncommitted_traces
    /\ ~ In "commit_config" t.
Proof.
  exact (@failed_staging_is_never_committed nat (canned healthy)
           staged_failed false true (start 0) eq_refl).
Defined.

Lemma uncommitted_candidate_stays_staged_witness :
  exists final,
    _config_logic (canned healthy) (PDict staged_with_note) false false
      (start 0) =
    (Ok (PDict final), mkState 1 ["compare_config"])
    /\ dict_get "already_configured" final = Some (PBool false)
    /\ dict_get "comment" final = Some (PStr "candidate loaded")
    /\ dict_get "result" final = Some (PBool true)
    /\ dict_get "diff" final = Some (PStr "+ntp peer 192.0.2.1")
    /\ dict_get "out" final = None.
Proof.
  exact (@uncommitted_candidate_stays_staged nat (canned healthy) 0 1 []
           staged_with_note diff_fields eq_refl eq_refl).
Defined.

Lemma committed_change_is_reported_witness :
  exists final,
    _config_logic (canned healthy) (PDict staged_no_comment) false true
      (start 0) =
    (Ok (PDict final), mkState 2 ["compare_config"; "commit_config"])
    /\ dict_get "already_configured" final = Some (PBool false)
    /\ dict_get "comment" final = None
    /\ dict_get "result" final = Some (PBool true)
    /\ get_or final "diff" (PStr "") = PStr "+ntp peer 192.0.2.1".
Proof.
  exact (@committed_change_is_reported nat (canned healthy) 0 1 2 []
           staged_no_comment diff_fields ok_fields 19
           eq_refl eq_refl eq_refl (Nat.lt_0_succ 18) eq_refl eq_refl).
Defined.

Lemma empty_diff_failed_discard_is_reported_witness :
  exists final,
    _config_logic (canned in_sync_locked) (PDict staged_with_note)
      false true (start 0) =
    (Ok (PDict final), mkState 2 ["compare_config"; "discard_config"])
    /\ dict_get "already_configured" final = Some (PBool false)
    /\ dict_get "comment" final =
       Some (PStr "candidate loadedsession locked")
    /\ dict_get "result" final = Some (PBool false).
Proof.
  exact (@empty_diff_failed_discard_is_reported nat (canned in_sync_locked)
           0 1 2 [] staged_with_note no_diff_fields discard_failed_fields
           "candidate loaded" "session locked"
           eq_refl eq_refl eq_refl eq_refl eq_refl eq_refl eq_refl).
Defined.

Lemma failed_discard_in_discard_branch_witness :
  exists final,
    _config_logic (canned change_locked) (PDict staged_with_note)
      true true (start 0) =
    (Ok (PDict final), mkState 2 ["compare_config"; "discard_config"])
    /\ dict_get "result" final = Some (PBool false)
    /\ dict_get "comment" final =
       Some (PStr ("candidate loaded" ++ nl ++ "session locked"))
    /\ dict_get "already_configured" final = Some (PBool false).
Proof.
  exact (@failed_discard_in_discard_branch nat (canned change_locked)
           0 1 2 [] staged_with_note diff_fields discard_failed_fields
           "candidate loaded" "session locked" true true 19
           eq_refl eq_refl eq_refl eq_refl eq_refl eq_refl eq_refl).
Defined.

Lemma empty_diff_in_discard_branch_witness :
  exists final,
    _config_logic (canned in_sync) (PDict staged_with_note) true true
      (start 0) =
    (Ok (PDict final), mkState 2 ["compare_config"; "discard_config"])
    /\ dict_get "already_configured" final = Some (PBool true)
    /\ dict_get "comment" final =
       Some (PStr ("candidate loaded" ++ nl ++ "Configuration discarded."))
    /\ dict_get "result" final = Some (PBool true).
Proof.
  exact (@empty_diff_in_discard_branch nat (canned in_sync)
           0 1 2 [] staged_with_note no_diff_fields ok_fields
           "candidate loaded" true true
           eq_refl eq_refl eq_refl eq_refl eq_refl eq_refl).
Defined.

Lemma failed_commit_message_witness :
  exists final,
    _config_logic (canned change_locked) (PDict staged_with_note)
      false true (start 0) =
    (Ok (PDict final),
     mkState 3 ["compare_config"; "commit_config"; "discard_config"])
    /\ dict_get "comment" final =
       Some (PStr ("candidate loaded" ++ "syntax error" ++ nl ++
                   "session locked"))
    /\ dict_get "result" final = Some (PBool false)
    /\ dict_get "already_configured" final = Some (PBool false).
Proof.
  exact (@failed_commit_message nat (canned change_locked)
           0 1 2 3 [] staged_with_note diff_fields commit_failed_fields
           discard_failed_fields "candidate loaded" "syntax error"
           "session locked" 19
           eq_refl eq_refl eq_refl eq_refl (Nat.lt_0_succ 18)
           eq_refl eq_refl eq_refl eq_refl eq_refl).
Defined.

Lemma missing_comment_raises_before_discard_witness :
  _config_logic (canned healthy) (PDict staged_no_comment) true true
    (start 0) =
  (Raise KeyError, mkState 1 ["compare_config"]).
Proof.
  exact (@missing_comment_raises_before_discard nat (canned healthy) 0 1 []
           staged_no_comment diff_fields true true eq_refl eq_refl eq_refl).
Defined.

Lemma unmeasurable_diff_raises_witness :
  _config_logic (canned compare_is_silent) (PDict staged_ok) false true
    (start 0) =
  (Raise TypeError, mkState 1 ["compare_config"]).
Proof.
  exact (@unmeasurable_diff_raises nat (canned compare_is_silent) 0 1 []
           staged_ok silent_compare_fields "" false true
           eq_refl eq_refl eq_refl eq_refl).
Defined.

Lemma compare_decides_out_and_diff_witness :
  keeps_out_diff None (Some (PStr "+ntp peer 192.0.2.1"))
    (PDict [("result", PBool false);
            ("comment", PStr ("syntax error" ++ nl ++
                              "Unable to discard config."));
            ("already_configured", PBool false);
            ("diff", PStr "+ntp peer 192.0.2.1")]).
Proof.
  apply (proj1 (@compare_decides_out_and_diff nat (canned commit_fails)
                  0 1 [] staged_ok diff_fields false true _
                  (mkState 3 ["compare_config"; "commit_config";
                              "discard_config"])
                  eq_refl eq_refl)).
  reflexivity.
Defined.

Lemma filter_list_idempotent_witness :
  _filter_list
    (table [[("mac", PStr "8c:60:4f:58:e1:c1"); ("interface", PStr "xe-1/0/1");
             ("vlan", PInt 42)]])
    "vlan" (PInt 42)
  = Ok (table [[("mac", PStr "8c:60:4f:58:e1:c1");
                ("interface", PStr "xe-1/0/1"); ("vlan", PInt 42)]]).
Proof.
  exact (@filter_list_idempotent (table mac_rows) _ "vlan" (PInt 42)
           eq_refl).
Defined.

Lemma filter_dict_idempotent_witness :
  exists out,
    _filter_dict
      (grouped [("xe-0", [[("vlan", PInt 10)]; [("vlan", PInt 20)]]);
                ("xe-1", [[("vlan", PInt 30)]])])
      "vlan" (PInt 10) = Ok out
    /\ _filter_dict out "vlan" (PInt 10) = Ok out.
Proof.
  apply (@filter_dict_idempotent
           [("xe-0", [[("vlan", PInt 10)]; [("vlan", PInt 20)]]);
            ("xe-1", [[("vlan", PInt 30)]])]
           "vlan" (PInt 10)).
  repeat constructor; simpl; intuition discriminate.
Defined.

Lemma arp_keeps_rows_passing_all_filters_witness :
  arp (canned tables_up) (PStr "xe-1/0/1") (PStr "")
    (PStr "8c:60:4f:58:e1:c1") (start 0) =
  (Ok (PDict [("out", table [[("mac", PStr "8c:60:4f:58:e1:c1");
                              ("interface", PStr "xe-1/0/1");
                              ("vlan", PInt 42)]]);
              ("result", PBool true); ("comment", PStr "")]),
   mkState 1 ["get_arp_table"]).
Proof.
  exact (@arp_keeps_rows_passing_all_filters nat (canned tables_up) 0 1 []
           mac_fields mac_rows (PStr "xe-1/0/1") (PStr "")
           (PStr "8c:60:4f:58:e1:c1") eq_refl eq_refl eq_refl).
Defined.

Lemma mac_keeps_rows_passing_all_filters_witness :
  mac (canned tables_up) (PStr "") (PStr "xe-3/0/2") (PInt 10) (start 0) =
  (Ok (PDict [("out", table [[("mac", PStr "00:1c:58:29:4a:71");
                              ("interface", PStr "xe-3/0/2");
                              ("vlan", PInt 10)]]);
              ("result", PBool true); ("comment", PStr "")]),
   mkState 1 ["get_mac_address_table"]).
Proof.
  exact (@mac_keeps_rows_passing_all_filters nat (canned tables_up) 0 1 []
           mac_fields mac_rows (PStr "") (PStr "xe-3/0/2") (PInt 10)
           eq_refl eq_refl eq_refl).
Defined.

Lemma unfiltered_getters_return_the_answer_witness :
  arp (canned tables_up) (PStr "") (PStr "") (PStr "") (start 0) =
  (Ok (PDict mac_fields), mkState 1 ["get_arp_table"])
  /\ mac (canned tables_up) (PStr "") (PStr "") (PInt 0) (start 0) =
     (Ok (PDict mac_fields), mkState 1 ["get_mac_address_table"])
  /\ lldp (canned tables_up) "" (start 0) =
     (Ok (PDict lldp_fields), mkState 1 ["get_lldp_neighbors_detail"]).
Proof.
  split; [|split].
  - apply (@unfiltered_getters_return_the_answer nat (canned tables_up)
             0 1 [] mac_fields (PStr "") (PStr "") (PStr "") (table mac_rows)
             eq_refl eq_refl eq_refl eq_refl eq_refl).
    reflexivity.
  - apply (@unfiltered_getters_return_the_answer nat (canned tables_up)
             0 1 [] mac_fields (PStr "") (PStr "") (PInt 0) (table mac_rows)
             eq_refl eq_refl eq_refl eq_refl eq_refl).
    reflexivity.
  - apply (@unfiltered_getters_return_the_answer nat (canned tables_up)
             0 1 [] lldp_fields PNone PNone PNone
             (PDict [("xe-0", table [neighbor]); ("xe-1", table [])])
             eq_refl eq_refl eq_refl eq_refl eq_refl).
    reflexivity.
Defined.

Lemma getters_on_answer_without_output_witness :
  arp (canned tables_without_output) (PStr "xe-0") (PStr "") (PStr "")
    (start 0) =
  (Raise TypeError, mkState 1 ["get_arp_table"])
  /\ arp (canned tables_without_output) (PStr "") (PStr "") (PStr "")
       (start 0) =
     (Ok (PDict [("result", PBool true); ("comment", PStr "");
                 ("out", PNone)]),
      mkState 1 ["get_arp_table"])
  /\ lldp (canned tables_without_output) "xe-0" (start 0) =
     (Raise AttributeError, mkState 1 ["get_lldp_neighbors_detail"]).
Proof.
  split; [|split].
  - apply (@getters_on_answer_without_output nat
             (canned tables_without_output) 0 1 [] no_output_fields
             (PStr "xe-0") (PStr "") (PStr "") "" eq_refl eq_refl).
    reflexivity.
  - apply (@getters_on_answer_without_output nat
             (canned tables_without_output) 0 1 [] no_output_fields
             (PStr "") (PStr "") (PStr "") "" eq_refl eq_refl).
    reflexivity.
  - apply (@getters_on_answer_without_output nat
             (canned tables_without_output) 0 1 [] no_output_fields
             PNone PNone PNone "xe-0" eq_refl eq_refl);
      [reflexivity | discriminate].
Defined.

Lemma config_control_without_drift_witness :
  config_control (canned in_sync) str_of_scalar (start 0) =
  (Ok (false, PStr "Configuration was not changed on the device."),
   mkState 1 ["compare_config"]).
Proof.
  apply (@config_control_without_drift nat (canned in_sync) str_of_scalar
           (start 0)).
  intros reason. discriminate.
Defined.

Lemma config_control_commits_the_drift_witness :
  config_control (canned healthy) str_of_scalar (start 0) =
  (Ok (true, PStr ""), mkState 2 ["compare_config"; "commit_config"]).
Proof.
  exact (@config_control_commits_the_drift nat (canned healthy)
           str_of_scalar 0 1 2 [] diff_fields ok_fields
           eq_refl (conj eq_refl eq_refl) eq_refl eq_refl).
Defined.

Lemma load_config_commits_a_change_witness :
  exists final,
    load_config (canned healthy) PNone (PStr "ntp peer 192.0.2.1")
      false true (start 0) =
    (Ok (PDict final),
     mkState 3 ["load_merge_candidate"; "compare_config"; "commit_config"])
    /\ dict_get "already_configured" final = Some (PBool false)
    /\ dict_get "result" final = Some (PBool true)
    /\ dict_get "comment" final = Some (PStr "")
    /\ get_or final "diff" (PStr "") = PStr "+ntp peer 192.0.2.1".
Proof.
  exact (@load_config_commits_a_change nat (canned healthy) 0 1 2 3 []
           PNone (PStr "ntp peer 192.0.2.1") ok_fields diff_fields ok_fields
           19 eq_refl eq_refl eq_refl eq_refl (Nat.lt_0_succ 18)
           eq_refl eq_refl).
Defined.

Lemma load_template_dry_run_witness :
  exists final,
    load_template (canned templating) PNone PNone PNone
      (PStr "ntp_peers") PNone PNone true true
      [("peers", PList [PStr "192.0.2.1"])] (start 0) =
    (Ok (PDict final),
     mkState 3 ["load_template"; "compare_config"; "discard_config"])
    /\ dict_get "result" final = Some (PBool true)
    /\ dict_get "comment" final =
       Some (PStr ("candidate loaded" ++ nl ++ "Configuration discarded."))
    /\ dict_get "already_configured" final = Some (PBool false).
Proof.
  exact (@load_template_dry_run nat (canned templating) PNone PNone PNone
           (PStr "ntp_peers") PNone PNone
           [("peers", PList [PStr "192.0.2.1"])]
           0 1 2 3 [] true staged_with_note diff_fields ok_fields
           "candidate loaded" 19
           eq_refl eq_refl eq_refl eq_refl eq_refl eq_refl).
Defined.
